(** * mikeio1d: the [Res1D] facade over the MIKE 1D result engine

    A shallow embedding of [mikeio1d/res1d.py].  [Res1D] owns almost no
    logic: each method forwards to a collaborator (the result reader, the
    result writer, the result network, the extractor factory, the .NET
    [ResultData] object).  The collaborators are kept abstract, as an
    interface; the methods of [Res1D] are written in a small monad that
    threads the collaborators' state, lets a call raise, and records
    every call that crosses the interface. *)

From Stdlib Require Import List String Ascii ZArith Bool Lia DecimalString.
Import ListNotations.

Set Implicit Arguments.

(** ** Python values shared by every part of the model *)

(** A raised Python exception: its class and its message. *)
Inductive Exn : Type :=
| PyExn (cls : string) (msg : string).

Definition NotImplementedError (msg : string) : Exn :=
  PyExn "NotImplementedError" msg.

Definition Exn_eqb (a b : Exn) : bool :=
  match a, b with
  | PyExn c1 m1, PyExn c2 m2 => String.eqb c1 c2 && String.eqb m1 m2
  end.

(** What a call does: it returns a value or it raises. *)
Inductive Outcome (A : Type) : Type :=
| Returned (a : A)
| Raised (e : Exn).

Arguments Returned {A} a.
Arguments Raised {A} e.

Definition raised_by {A : Type} (o : Outcome A) : option Exn :=
  match o with
  | Returned _ => None
  | Raised e => Some e
  end.

(** The members of [ExtractorOutputFileType] that [res1d.py] names. *)
Inductive ExtractorOutputFileType : Type := CSV | DFS0 | TXT.

(** The [ext] value handed to the extractor factory: a string cut from
    the path, or whatever the caller passed; [to_csv], [to_dfs0] and
    [to_txt] pass a member of [ExtractorOutputFileType]. *)
Inductive PyExt : Type :=
| ExtStr (s : string)
| ExtType (t : ExtractorOutputFileType).

(** The [queries] argument when it is not [None]: a list, or one object
    that is not a list. *)
Inductive PyQueries (query : Type) : Type :=
| QList (l : list query)
| QSingle (q : query).

Arguments QList {query} l.
Arguments QSingle {query} q.

(** The [result_reader_type] argument of the constructor. *)
Inductive ResultReaderType : Type := QUERY | COPIER.

(** ** [os.path.splitext]

    The Python library routine [genericpath._splitext], called with the
    separators of [posixpath] or of [ntpath], whichever [os.path] is on
    the platform. *)
Module OsPath.

Inductive Platform : Type := Posix | Nt.

Definition sep (os : Platform) : ascii :=
  match os with
  | Posix => "/"%char
  | Nt => "\"%char
  end.

Definition altsep (os : Platform) : option ascii :=
  match os with
  | Posix => None
  | Nt => Some "/"%char
  end.

Definition extsep : ascii := "."%char.

(** [p.rfind(c)]: the index of the last [c] in [p], or [-1]. *)
Fixpoint rfind_from (p : list ascii) (c : ascii) (i : Z) (found : Z) : Z :=
  match p with
  | [] => found
  | x :: rest =>
      rfind_from rest c (i + 1)%Z (if Ascii.eqb x c then i else found)
  end.

Definition rfind (p : list ascii) (c : ascii) : Z :=
  rfind_from p c 0%Z (-1)%Z.

(** [p[i:j]] for [0 <= i]. *)
Definition slice (p : list ascii) (i j : Z) : list ascii :=
  firstn (Z.to_nat (j - i)) (skipn (Z.to_nat i) p).

Definition chars_eqb (a b : list ascii) : bool :=
  String.eqb (string_of_list_ascii a) (string_of_list_ascii b).

(** The [while filenameIndex < dotIndex] loop, which runs at most
    [dotIndex - filenameIndex] times: [true] when it reaches the
    [return] inside, [false] when it falls through. *)
Fixpoint skip_leading_dots (p : list ascii) (ext_sep : ascii)
    (filenameIndex : Z) (steps : nat) : bool :=
  match steps with
  | O => false
  | S steps' =>
      if negb (chars_eqb (slice p filenameIndex (filenameIndex + 1)) [ext_sep])
      then true
      else skip_leading_dots p ext_sep (filenameIndex + 1)%Z steps'
  end.

Definition _splitext (path : string) (sep_ : ascii) (altsep_ : option ascii)
    (extsep_ : ascii) : string * string :=
  let p := list_ascii_of_string path in
  let sepIndex := rfind p sep_ in
  let sepIndex :=
    match altsep_ with
    | Some a => Z.max sepIndex (rfind p a)
    | None => sepIndex
    end in
  let dotIndex := rfind p extsep_ in
  if (sepIndex <? dotIndex)%Z
     && skip_leading_dots p extsep_ (sepIndex + 1)%Z
          (Z.to_nat (dotIndex - (sepIndex + 1)))
  then (string_of_list_ascii (firstn (Z.to_nat dotIndex) p),
        string_of_list_ascii (skipn (Z.to_nat dotIndex) p))
  else (path, EmptyString).

Definition splitext (os : Platform) (path : string) : string * string :=
  _splitext path (sep os) (altsep os) extsep.

End OsPath.

(** ** The collaborators

    Everything [res1d.py] imports and calls.  The types are those of the
    objects that cross the interface; [engine] is the state behind it:
    the loaded [ResultData], the files on disk, the .NET runtime;
    [os_name] says which [os.path] the interpreter runs with. *)
Class Collaborators : Type := {
  os_name : OsPath.Platform;
  query : Type;        (* a QueryData object *)
  frame : Type;        (* a pandas.DataFrame *)
  entries : Type;      (* the data entries the extractors take *)
  extractor : Type;    (* an extractor made by ExtractorCreator *)
  pytime : Type;       (* a time value that is not a System.DateTime *)
  datetime : Type;     (* a System.DateTime *)
  number : Type;       (* a float *)
  engine : Type
}.

(** The state the collaborators hold while a [Res1D] object lives.
    [queries] and [queries_ids] are the two containers owned by
    [result_network].  Line 95 binds [self._queries] to the very list
    object [result_network.queries]; no method of [Res1D] rebinds either
    name and [clear] empties a list in place, so the two names are one
    cell of this store. *)
Record Store `{Collaborators} : Type := mkStore {
  queries : list query;
  queries_ids : list string;
  eng : engine
}.

Arguments mkStore {_} queries queries_ids eng.

(** A collaborator's method: it may change the store and may raise. *)
Definition Method `{Collaborators} (A : Type) : Type :=
  Store -> Outcome A * Store.

(** The operations [res1d.py] calls on its collaborators. *)
Class Operations `{Collaborators} : Type := {
  ResultReaderCreator_create :
    ResultReaderType -> option string -> bool -> bool ->
    option (list string) -> option (list string) -> option (list string) ->
    string -> bool -> engine -> Outcome unit * engine;
  ResultNetwork_new : engine -> Outcome (list query * list string) * engine;
  ResultWriter_new : engine -> Outcome unit * engine;
  result_reader_read : list query -> Method frame;
  result_reader_read_all : Method frame;
  result_reader_is_lts_result_file : Method bool;
  to_dotnet_datetime : pytime -> Method datetime;
  query_GetReachValue : string -> number -> string -> datetime -> Method number;
  result_writer_modify : frame -> Method unit;
  data_Connection_FilePath_set_Path : string -> Method unit;
  data_Save : Method unit;
  result_network_convert_queries_to_data_entries : list query -> Method entries;
  ExtractorCreator_create : PyExt -> string -> entries -> Z -> Method extractor;
  extractor_export : extractor -> Method unit
}.

(** ** Calls across the interface *)

Inductive Call `{Collaborators} : Type :=
| CallCreateReader (t : ResultReaderType) (file_path : option string)
    (lazy_load header_load : bool)
    (reaches nodes catchments : option (list string))
    (col_name_delimiter : string) (put_chainage_in_col_name : bool)
| CallNewNetwork
| CallNewWriter
| CallRead (qs : list query)
| CallReadAll
| CallIsLts
| CallToDotnetDatetime (t : pytime)
| CallGetReachValue (reach_name : string) (chainage : number)
    (quantity : string) (t : datetime)
| CallModify (df : frame)
| CallSetPath (file_path : string)
| CallSave
| CallConvertQueries (qs : list query)
| CallCreateExtractor (ext : PyExt) (file_path : string) (es : entries)
    (time_step_skipping_number : Z)
| CallExport (x : extractor).

(** One call and how it ended: [None] when it returned, [Some e] when it
    raised [e]. *)
Record Event `{Collaborators} : Type := Ev {
  ev_call : Call;
  ev_raised : option Exn
}.

Arguments Ev {_} ev_call ev_raised.

(** ** The monad of [Res1D] methods *)

Section Monad.

Context `{Collaborators}.
Variable S : Type.

Definition M (A : Type) : Type := S -> Outcome A * S * list Event.

Definition ret {A : Type} (a : A) : M A :=
  fun s => (Returned a, s, []).

Definition raise {A : Type} (e : Exn) : M A :=
  fun s => (Raised e, s, []).

Definition bind {A B : Type} (m : M A) (k : A -> M B) : M B :=
  fun s =>
    match m s with
    | (Returned a, s1, t1) =>
        match k a s1 with
        | (o, s2, t2) => (o, s2, t1 ++ t2)
        end
    | (Raised e, s1, t1) => (Raised e, s1, t1)
    end.

(** A call to a collaborator, recorded. *)
Definition call {A : Type} (c : Call) (op : S -> Outcome A * S) : M A :=
  fun s =>
    match op s with
    | (o, s1) => (o, s1, [Ev c (raised_by o)])
    end.

Definition get : M S := fun s => (Returned s, s, []).

Definition put (s : S) : M unit := fun _ => (Returned tt, s, []).

End Monad.

Arguments ret {_ S A} a.
Arguments raise {_ S A} e.
Arguments bind {_ S A B} m k.
Arguments call {_ S A} c op.
Arguments get {_ S}.
Arguments put {_ S} s.

Declare Scope res1d_scope.
Delimit Scope res1d_scope with res1d.
Notation "x <- m ;; k" := (bind m (fun x => k))
  (at level 100, m at next level, right associativity) : res1d_scope.
Notation "m ;; k" := (bind m (fun _ => k))
  (at level 100, right associativity) : res1d_scope.

Definition outcome {S A E : Type} (r : Outcome A * S * list E) : Outcome A :=
  fst (fst r).
Definition final {S A E : Type} (r : Outcome A * S * list E) : S :=
  snd (fst r).
Definition calls {S A E : Type} (r : Outcome A * S * list E) : list E :=
  snd r.

(** ** [class Res1D] *)

Section Res1D.

Context `{Ops : Operations}.

Local Open Scope res1d_scope.

(** The attributes [__init__] sets on [self] and nothing reassigns.
    [result_reader], [result_network] and [result_writer] are the
    collaborators themselves; [_queries] is the [queries] cell of the
    store. *)
Record Res1D : Type := mkRes1D {
  _start_time : option pytime;
  _end_time : option pytime;
  clear_queries_after_reading : bool
}.

(** The [time] argument of [get_reach_value]: a [System.DateTime]
    already, or something to convert. *)
Inductive PyTimeArg : Type :=
| IsDateTime (d : datetime)
| NotDateTime (t : pytime).

(** Lines 72-97.  The constructor runs before any store exists: it
    threads the engine alone and returns the new object with the two
    containers [ResultNetwork(self)] made. *)
Definition __init__
    (file_path : option string) (lazy_load header_load : bool)
    (reaches nodes catchments : option (list string))
    (col_name_delimiter : string)
    (put_chainage_in_col_name clear_queries_after_reading_ : bool)
    (result_reader_type : ResultReaderType)
    : M engine (Res1D * (list query * list string)) :=
  call (CallCreateReader result_reader_type file_path lazy_load header_load
          reaches nodes catchments col_name_delimiter put_chainage_in_col_name)
       (ResultReaderCreator_create result_reader_type file_path lazy_load
          header_load reaches nodes catchments col_name_delimiter
          put_chainage_in_col_name) ;;
  network <- call CallNewNetwork ResultNetwork_new ;;
  call CallNewWriter ResultWriter_new ;;
  ret (mkRes1D None None clear_queries_after_reading_, network).

(** The object and its store after [Res1D(...)], or the exception. *)
Definition construct
    (file_path : option string) (lazy_load header_load : bool)
    (reaches nodes catchments : option (list string))
    (col_name_delimiter : string)
    (put_chainage_in_col_name clear_queries_after_reading_ : bool)
    (result_reader_type : ResultReaderType)
    (e : engine) : Outcome (Res1D * Store) * list Event :=
  match __init__ file_path lazy_load header_load reaches nodes catchments
          col_name_delimiter put_chainage_in_col_name
          clear_queries_after_reading_ result_reader_type e with
  | (Returned (self, (qs, ids)), e1, t) =>
      (Returned (self, mkStore qs ids e1), t)
  | (Raised x, _, t) => (Raised x, t)
  end.

(** [self._queries]. *)
Definition _queries : M Store (list query) :=
  s <- get ;; ret (queries s).

(** Lines 118-122. *)
Definition _get_actual_queries (self : Res1D)
    (queries_ : option (PyQueries query)) : M Store (list query) :=
  queries1 <- match queries_ with
              | None => active <- _queries ;; ret (QList active)
              | Some q => ret q
              end ;;
  ret (match queries1 with
       | QList l => l
       | QSingle q => [q]
       end).

(** Lines 161-163. *)
Definition read_all (self : Res1D) : M Store frame :=
  call CallReadAll result_reader_read_all.

(** Lines 126-159. *)
Definition read (self : Res1D) (queries_ : option (PyQueries query))
    : M Store frame :=
  active <- _queries ;;
  if match queries_ with None => true | Some _ => false end
     && (List.length active =? 0)%nat
  then read_all self
  else
    qs <- _get_actual_queries self queries_ ;;
    df <- call (CallRead qs) (result_reader_read qs) ;;
    ret df.

(** Lines 165-168. *)
Definition clear_queries (self : Res1D) : M Store unit :=
  (s <- get ;; put (mkStore [] (queries_ids s) (eng s))) ;;
  (s <- get ;; put (mkStore (queries s) [] (eng s))).

(** Lines 255-260. *)
Definition get_reach_value (self : Res1D) (reach_name : string)
    (chainage : number) (quantity : string) (time : PyTimeArg)
    : M Store number :=
  lts <- call CallIsLts result_reader_is_lts_result_file ;;
  if lts : bool
  then raise
         (NotImplementedError
            "The method is not implemented for LTS event statistics.")
  else
    time_dotnet <- match time with
                   | IsDateTime d => ret d
                   | NotDateTime t =>
                       call (CallToDotnetDatetime t) (to_dotnet_datetime t)
                   end ;;
    call (CallGetReachValue reach_name chainage quantity time_dotnet)
         (query_GetReachValue reach_name chainage quantity time_dotnet).

(** Lines 288-298. *)
Definition save (self : Res1D) (file_path : string) : M Store unit :=
  call (CallSetPath file_path) (data_Connection_FilePath_set_Path file_path) ;;
  call CallSave data_Save.

(** Lines 273-286. *)
Definition modify (self : Res1D) (data_frame : frame)
    (file_path : option string) : M Store unit :=
  call (CallModify data_frame) (result_writer_modify data_frame) ;;
  match file_path with
  | Some p => save self p
  | None => ret tt
  end.

(** Lines 300-330. *)
Definition extract (self : Res1D) (file_path : string)
    (queries_ : option (PyQueries query)) (time_step_skipping_number : Z)
    (ext : option PyExt) : M Store unit :=
  let ext1 := match ext with
              | None => ExtStr (snd (OsPath.splitext os_name file_path))
              | Some e => e
              end in
  qs <- _get_actual_queries self queries_ ;;
  data_entries <- call (CallConvertQueries qs)
                    (result_network_convert_queries_to_data_entries qs) ;;
  x <- call (CallCreateExtractor ext1 file_path data_entries
               time_step_skipping_number)
         (ExtractorCreator_create ext1 file_path data_entries
            time_step_skipping_number) ;;
  call (CallExport x) (extractor_export x) ;;
  if clear_queries_after_reading self
  then clear_queries self
  else ret tt.

(** Lines 332-342. *)
Definition to_csv (self : Res1D) (file_path : string)
    (queries_ : option (PyQueries query)) (time_step_skipping_number : Z)
    : M Store unit :=
  extract self file_path queries_ time_step_skipping_number
    (Some (ExtType CSV)).

Definition to_dfs0 (self : Res1D) (file_path : string)
    (queries_ : option (PyQueries query)) (time_step_skipping_number : Z)
    : M Store unit :=
  extract self file_path queries_ time_step_skipping_number
    (Some (ExtType DFS0)).

Definition to_txt (self : Res1D) (file_path : string)
    (queries_ : option (PyQueries query)) (time_step_skipping_number : Z)
    : M Store unit :=
  extract self file_path queries_ time_step_skipping_number
    (Some (ExtType TXT)).

End Res1D.

(** ** What the specification says of a run *)

Section Contracts.

Context `{Ops : Operations}.

(** The list a non-[None] [queries] argument stands for: itself when it
    is a list, else the list of that one object. *)
Definition normalized (q : PyQueries query) : list query :=
  match q with
  | QList l => l
  | QSingle x => [x]
  end.

Definition returned (ev : Event) : Prop := ev_raised ev = None.

(** A run passes failures through when an exception it ends with is the
    one its last call raised, every call before that one returned, and
    a run that returns has seen no call raise. *)
Definition passes_through {St A : Type} (r : Outcome A * St * list Event)
    : Prop :=
  match outcome r with
  | Returned _ => Forall returned (calls r)
  | Raised e =>
      exists before c,
        calls r = before ++ [Ev c (Some e)] /\ Forall returned before
  end.

(** The [ext] arguments of the calls to [ExtractorCreator.create]. *)
Fixpoint created_with (t : list Event) : list PyExt :=
  match t with
  | [] => []
  | Ev (CallCreateExtractor ext _ _ _) _ :: rest => ext :: created_with rest
  | _ :: rest => created_with rest
  end.

(** [Res1D(...)] and then [read(queries)] on the new object. *)
Definition construct_then_read
    (file_path : option string) (lazy_load header_load : bool)
    (reaches nodes catchments : option (list string))
    (col_name_delimiter : string)
    (put_chainage_in_col_name clear_queries_after_reading_ : bool)
    (result_reader_type : ResultReaderType)
    (queries_ : option (PyQueries query)) (e : engine) : Outcome frame :=
  match construct file_path lazy_load header_load reaches nodes catchments
          col_name_delimiter put_chainage_in_col_name
          clear_queries_after_reading_ result_reader_type e with
  | (Returned (self, s), _) => outcome (read self queries_ s)
  | (Raised x, _) => Raised x
  end.

End Contracts.

(** ** A result engine *)

(** Modelled from the spec: the collaborators of [Res1D], none of which is
    in [res1d.py]: the result reader and its filters, the result network,
    the result writer, the extractors and the .NET result data.  A result
    file holds time series at catchments, nodes and reaches; a query
    names a quantity, a location and optionally a chainage; a filter list
    that is absent or empty means no filtering. *)
Module Engine1D.

Inductive Location : Type := Catchment | Node | Reach.

Definition Location_eqb (a b : Location) : bool :=
  match a, b with
  | Catchment, Catchment | Node, Node | Reach, Reach => true
  | _, _ => false
  end.

Record QueryData : Type := mkQuery {
  q_location : Location;
  q_quantity : string;
  q_id : string;
  q_chainage : option Z
}.

Definition option_Z_eqb (a b : option Z) : bool :=
  match a, b with
  | None, None => true
  | Some x, Some y => Z.eqb x y
  | _, _ => false
  end.

Definition QueryData_eqb (a b : QueryData) : bool :=
  Location_eqb (q_location a) (q_location b)
  && String.eqb (q_quantity a) (q_quantity b)
  && String.eqb (q_id a) (q_id b)
  && option_Z_eqb (q_chainage a) (q_chainage b).

(** One time series of a result file, and the values at its time
    steps. *)
Record Series : Type := mkSeries {
  s_key : QueryData;
  s_values : list Z
}.

Record ResultData : Type := mkResultData {
  lts : bool;
  series : list Series
}.

Definition DataFrame : Type := list Series.

Record Extractor : Type := mkExtractor {
  x_type : ExtractorOutputFileType;
  x_path : string;
  x_entries : list QueryData;
  x_step : Z
}.

(** The files on disk, the loaded result data and the path it will be
    saved to, and the files the extractors wrote. *)
Record Engine : Type := mkEngine {
  disk : list (string * ResultData);
  data : ResultData;
  data_path : string;
  exported : list (string * ExtractorOutputFileType * DataFrame)
}.

Definition colls : Collaborators := {|
  os_name := OsPath.Posix;
  query := QueryData;
  frame := DataFrame;
  entries := list QueryData;
  extractor := Extractor;
  pytime := Z;
  datetime := Z;
  number := Z;
  engine := Engine
|}.

Definition St : Type := @Store colls.

Fixpoint lookup_file (p : string) (d : list (string * ResultData))
    : option ResultData :=
  match d with
  | [] => None
  | (name, f) :: rest =>
      if String.eqb name p then Some f else lookup_file p rest
  end.

(** Modelled from the spec: how the reader, which is not in [res1d.py],
    reads a filter list.  The list lets an identifier through when it is
    absent, when it is empty (both mean no filtering), or when it holds
    the identifier. *)
Definition passes (filter : option (list string)) (id : string) : bool :=
  match filter with
  | None => true
  | Some [] => true
  | Some ids => existsb (String.eqb id) ids
  end.

(** Modelled from the spec: the filter of each kind of location applies
    to the series at locations of that kind. *)
Definition keep (reaches nodes catchments : option (list string))
    (s : Series) : bool :=
  match q_location (s_key s) with
  | Reach => passes reaches (q_id (s_key s))
  | Node => passes nodes (q_id (s_key s))
  | Catchment => passes catchments (q_id (s_key s))
  end.

(** Modelled from the spec: loading a result file under the three
    filters of the constructor. *)
Definition load (reaches nodes catchments : option (list string))
    (f : ResultData) : ResultData :=
  mkResultData (lts f) (filter (keep reaches nodes catchments) (series f)).

(** Modelled from the spec: [ResultReaderCreator.create], which opens the
    result file and loads it under the filters; a path that names no file
    raises. *)
Definition create_reader (t : ResultReaderType) (file_path : option string)
    (lazy_load header_load : bool)
    (reaches nodes catchments : option (list string))
    (col_name_delimiter : string) (put_chainage_in_col_name : bool)
    (e : Engine) : Outcome unit * Engine :=
  match file_path with
  | None => (Returned tt, e)
  | Some p =>
      match lookup_file p (disk e) with
      | None => (Raised (PyExn "FileNotFoundError" p), e)
      | Some f =>
          (Returned tt,
           mkEngine (disk e) (load reaches nodes catchments f) p (exported e))
      end
  end.

Definition new_network (e : Engine)
    : Outcome (list QueryData * list string) * Engine :=
  (Returned ([], []), e).

Definition new_writer (e : Engine) : Outcome unit * Engine :=
  (Returned tt, e).

Fixpoint find_series (q : QueryData) (l : list Series) : option Series :=
  match l with
  | [] => None
  | s :: rest =>
      if QueryData_eqb (s_key s) q then Some s else find_series q rest
  end.

(** The columns of the queries, or the first query that names no
    series. *)
Fixpoint columns (qs : list QueryData) (l : list Series)
    : Outcome DataFrame :=
  match qs with
  | [] => Returned []
  | q :: rest =>
      match find_series q l with
      | None => Raised (PyExn "KeyError" (q_id q))
      | Some s =>
          match columns rest l with
          | Returned df => Returned (s :: df)
          | Raised x => Raised x
          end
      end
  end.

Definition reader_read (qs : list QueryData) (s : St) : Outcome DataFrame * St :=
  (columns qs (series (data (eng s))), s).

Definition reader_read_all (s : St) : Outcome DataFrame * St :=
  (Returned (series (data (eng s))), s).

Definition is_lts_result_file (s : St) : Outcome bool * St :=
  (Returned (lts (data (eng s))), s).

Definition to_dotnet (t : Z) (s : St) : Outcome Z * St :=
  (Returned t, s).

Definition GetReachValue (reach_name : string) (chainage : Z)
    (quantity : string) (t : Z) (s : St) : Outcome Z * St :=
  match find_series (mkQuery Reach quantity reach_name (Some chainage))
          (series (data (eng s))) with
  | None => (Raised (PyExn "KeyError" reach_name), s)
  | Some sr =>
      match nth_error (s_values sr) (Z.to_nat t) with
      | Some v => (Returned v, s)
      | None => (Raised (PyExn "IndexError" reach_name), s)
      end
  end.

Definition with_engine (s : St) (e : Engine) : St :=
  mkStore (H := colls) (queries s) (queries_ids s) e.

(** The series of the result data, each one replaced by the column of
    the frame that has its key when there is one. *)
Definition overwrite (df : DataFrame) (l : list Series) : list Series :=
  map (fun s => match find_series (s_key s) df with
                | Some c => c
                | None => s
                end) l.

Definition writer_modify (df : DataFrame) (s : St) : Outcome unit * St :=
  let e := eng s in
  (Returned tt,
   with_engine s
     (mkEngine (disk e)
        (mkResultData (lts (data e)) (overwrite df (series (data e))))
        (data_path e) (exported e))).

Definition set_Path (p : string) (s : St) : Outcome unit * St :=
  let e := eng s in
  (Returned tt, with_engine s (mkEngine (disk e) (data e) p (exported e))).

Definition Save (s : St) : Outcome unit * St :=
  let e := eng s in
  (Returned tt,
   with_engine s
     (mkEngine ((data_path e, data e) :: disk e) (data e) (data_path e)
        (exported e))).

Definition convert_queries (qs : list QueryData) (s : St)
    : Outcome (list QueryData) * St :=
  (Returned qs, s).

(** The output type an [ext] value names, with or without the dot the
    path's extension carries. *)
Definition file_type (ext : PyExt) : option ExtractorOutputFileType :=
  match ext with
  | ExtType t => Some t
  | ExtStr s =>
      if String.eqb s "csv" || String.eqb s ".csv" then Some CSV
      else if String.eqb s "dfs0" || String.eqb s ".dfs0" then Some DFS0
      else if String.eqb s "txt" || String.eqb s ".txt" then Some TXT
      else None
  end.

Definition ext_text (ext : PyExt) : string :=
  match ext with
  | ExtStr s => s
  | ExtType CSV => "csv"
  | ExtType DFS0 => "dfs0"
  | ExtType TXT => "txt"
  end.

Definition create_extractor (ext : PyExt) (file_path : string)
    (es : list QueryData) (time_step_skipping_number : Z) (s : St)
    : Outcome Extractor * St :=
  match file_type ext with
  | Some t => (Returned (mkExtractor t file_path es time_step_skipping_number), s)
  | None => (Raised (PyExn "ValueError" (ext_text ext)), s)
  end.

Definition export (x : Extractor) (s : St) : Outcome unit * St :=
  let e := eng s in
  match columns (x_entries x) (series (data e)) with
  | Returned df =>
      (Returned tt,
       with_engine s
         (mkEngine (disk e) (data e) (data_path e)
            ((x_path x, x_type x, df) :: exported e)))
  | Raised err => (Raised err, s)
  end.

(** Modelled from the spec: the operations of the collaborators, put
    together. *)
Definition ops : @Operations colls := @Build_Operations colls
  create_reader new_network new_writer reader_read reader_read_all
  is_lts_result_file to_dotnet GetReachValue writer_modify set_Path Save
  convert_queries create_extractor export.

(** *** A small installation *)

Definition water_level_n1 : QueryData := mkQuery Node "WaterLevel" "n1" None.
Definition discharge_r1 : QueryData :=
  mkQuery Reach "Discharge" "r1" (Some 50%Z).

Definition network_file : ResultData :=
  mkResultData false
    [ mkSeries water_level_n1 [10; 11; 12]%Z;
      mkSeries discharge_r1 [3; 4; 5]%Z ].

Definition lts_file : ResultData :=
  mkResultData true [ mkSeries discharge_r1 [7]%Z ].

Definition empty_data : ResultData := mkResultData false [].

Definition fresh : Engine :=
  mkEngine
    [("network.res1d"%string, network_file); ("lts.res1d"%string, lts_file)]
    empty_data "" [].

(** The stores after [Res1D('network.res1d')] and [Res1D('lts.res1d')],
    the first one also with one query made active. *)
Definition network_store : St :=
  mkStore (H := colls) [] [] (mkEngine (disk fresh) network_file "network.res1d" []).

Definition network_store_active : St :=
  mkStore (H := colls) [water_level_n1] ["WaterLevel:n1"%string]
    (mkEngine (disk fresh) network_file "network.res1d" []).

Definition lts_store : St :=
  mkStore (H := colls) [] [] (mkEngine (disk fresh) lts_file "lts.res1d" []).

Definition res1d (clear : bool) : @Res1D colls :=
  mkRes1D (H := colls) None None clear.

End Engine1D.

(** ** Reading the loaded result data

    The properties of [Res1D] that look into the result reader and the
    .NET [ResultData]: [file_path], [start_time], [end_time], and the
    summary [__repr__] prints. *)

(** One entry of [data.Quantities]: its [Id] and the
    [EumQuantity.UnitAbbreviation]. *)
Record Quantity : Type := mkQuantity {
  Id : string;
  UnitAbbreviation : string
}.

(** What these properties read.  Each read may raise and may change the
    store (a lazily loaded file reads from disk); [str_of_time] is
    Python's [str] on a time value. *)
Class Inspection `{Collaborators} : Type := {
  result_reader_file_path : Method (option string);
  data_StartTime : Method datetime;
  data_EndTime : Method datetime;
  from_dotnet_datetime : datetime -> Method pytime;
  str_of_time : pytime -> string;
  data_NumberOfTimeSteps : Method Z;
  data_Catchments_get_Count : Method Z;
  data_Nodes_get_Count : Method Z;
  data_Reaches_get_Count : Method Z;
  data_GlobalData_DataItems_Count : Method Z;
  data_Quantities : Method (list Quantity)
}.

(** Python's [str] on an [int]. *)
Definition str_int (z : Z) : string :=
  DecimalString.NilZero.string_of_int (Z.to_int z).

(** The line feed [str.join] puts between the lines. *)
Definition newline : string := String (ascii_of_nat 10) EmptyString.

(** The truth value of [self.file_path]: [None] and the empty string are
    false. *)
Definition truthy (file_path : option string) : bool :=
  match file_path with
  | Some (String _ _) => true
  | Some EmptyString => false
  | None => false
  end.

Section Properties.

Context `{Ins : Inspection}.

(** Sequencing of reads: the second runs in the store the first left,
    and not at all when the first raised. *)
Definition and_then {A B : Type} (m : Method A) (k : A -> Method B)
    : Method B :=
  fun s =>
    match m s with
    | (Returned a, s1) => k a s1
    | (Raised e, s1) => (Raised e, s1)
    end.

Definition result {A : Type} (a : A) : Method A :=
  fun s => (Returned a, s).

(** Lines 204-207. *)
Definition file_path (self : Res1D) : Method (option string) :=
  result_reader_file_path.

(** Lines 175-180. *)
Definition start_time (self : Res1D) : Method pytime :=
  match _start_time self with
  | Some t => result t
  | None => and_then data_StartTime from_dotnet_datetime
  end.

(** Lines 182-187. *)
Definition end_time (self : Res1D) : Method pytime :=
  match _end_time self with
  | Some t => result t
  | None => and_then data_EndTime from_dotnet_datetime
  end.

(** The lines the [for i, quantity in enumerate(...)] loop of lines
    111-112 appends, counting from [i]. *)
Fixpoint quantity_lines (i : Z) (quantities : list Quantity) : list string :=
  match quantities with
  | [] => []
  | quantity :: rest =>
      (str_int i ++ " - " ++ Id quantity ++ " <"
         ++ UnitAbbreviation quantity ++ ">")%string
        :: quantity_lines (i + 1)%Z rest
  end.

(** Lines 100-112: the list [out]. *)
Definition __repr__out (self : Res1D) : Method (list string) :=
  and_then (file_path self) (fun fp =>
  if truthy fp then
    and_then (start_time self) (fun st =>
    and_then (end_time self) (fun en =>
    and_then data_NumberOfTimeSteps (fun steps =>
    and_then data_Catchments_get_Count (fun cs =>
    and_then data_Nodes_get_Count (fun ns =>
    and_then data_Reaches_get_Count (fun rs =>
    and_then data_GlobalData_DataItems_Count (fun gs =>
    and_then data_Quantities (fun qs =>
    result
      (["<mikeio1d.Res1D>"%string;
        ("Start time: " ++ str_of_time st)%string;
        ("End time: " ++ str_of_time en)%string;
        ("# Timesteps: " ++ str_int steps)%string;
        ("# Catchments: " ++ str_int cs)%string;
        ("# Nodes: " ++ str_int ns)%string;
        ("# Reaches: " ++ str_int rs)%string;
        ("# Globals: " ++ str_int gs)%string]
       ++ quantity_lines 0%Z qs)))))))))
  else result ["<mikeio1d.Res1D>"%string]).

(** Lines 99-114. *)
Definition __repr__ (self : Res1D) : Method string :=
  and_then (__repr__out self) (fun out => result (String.concat newline out)).

End Properties.

(** Modelled from the spec: the properties of the reader and of the
    result data of [Engine1D], none of which is in [res1d.py]: the path
    of the loaded file, the first and last time step, and the counts and
    quantities of the series the file holds. *)
Module Inspect1D.

Import Engine1D.

Definition count_at (l : Location) (s : St) : Z :=
  Z.of_nat
    (List.length
       (filter (fun sr => Location_eqb (q_location (s_key sr)) l)
          (series (data (eng s))))).

Definition steps (s : St) : Z :=
  match series (data (eng s)) with
  | [] => 0%Z
  | sr :: _ => Z.of_nat (List.length (s_values sr))
  end.

Definition loaded_path (s : St) : Outcome (option string) * St :=
  (Returned (match data_path (eng s) with
             | EmptyString => None
             | p => Some p
             end), s).

Definition quantity_of (sr : Series) : Quantity :=
  mkQuantity (q_quantity (s_key sr))
    (match q_location (s_key sr) with
     | Reach => "m^3/s"
     | _ => "m"
     end).

(** Modelled from the spec: the reads, put together; times are step
    numbers and print as such. *)
Definition ins : @Inspection colls := @Build_Inspection colls
  loaded_path
  (fun s => (Returned 0%Z, s))
  (fun s => (Returned (steps s - 1)%Z, s))
  (fun d s => (Returned d, s))
  str_int
  (fun s => (Returned (steps s), s))
  (fun s => (Returned (count_at Catchment s), s))
  (fun s => (Returned (count_at Node s), s))
  (fun s => (Returned (count_at Reach s), s))
  (fun s => (Returned 0%Z, s))
  (fun s => (Returned (map quantity_of (series (data (eng s)))), s)).

(** The store of [Res1D()] made without a file. *)
Definition no_file_store : St :=
  mkStore (H := colls) [] [] fresh.

End Inspect1D.

(** Modelled from the spec: the collaborators of [Engine1D] over result
    data that cannot be written ([result_writer.modify] raises) or a
    connection whose path cannot be set (the setter raises); the code of
    neither is in [res1d.py]. *)
Module Faults1D.

Import Engine1D.

Definition failing_modify (df : DataFrame) (s : St) : Outcome unit * St :=
  (Raised (PyExn "IOError" "the result data is read-only"), s).

Definition failing_set_Path (p : string) (s : St) : Outcome unit * St :=
  (Raised (PyExn "ArgumentException" p), s).

Definition ops (writer_fails path_fails : bool) : @Operations colls :=
  @Build_Operations colls
    create_reader new_network new_writer reader_read reader_read_all
    is_lts_result_file to_dotnet GetReachValue
    (if writer_fails then failing_modify else writer_modify)
    (if path_fails then failing_set_Path else set_Path)
    Save convert_queries create_extractor export.

End Faults1D.

(** ** Properties of the facade, for any collaborators *)

(** Runs a method down to the collaborator calls it is made of. *)
Ltac run :=
  unfold to_csv, to_dfs0, to_txt, extract, modify, save, get_reach_value,
    read, read_all, clear_queries, _get_actual_queries, _queries,
    bind, call, ret, raise, get, put; simpl.

(** Splits on how the next collaborator call ends. *)
Ltac step :=
  match goal with
  | |- context [match ?op ?s with _ => _ end] =>
      let o := fresh "o" in
      let s1 := fresh "s" in
      let E := fresh "E" in
      destruct (op s) as [o s1] eqn:E; destruct o; simpl
  end.

(** Closes a [passes_through] goal on an explicit list of calls. *)
Ltac through :=
  unfold passes_through, outcome, calls, returned; simpl;
  first
    [ solve [repeat constructor]
    | exists (@nil Event); eexists; split; [reflexivity | repeat constructor]
    | eexists [_]; eexists; split; [reflexivity | repeat constructor]
    | eexists [_; _]; eexists; split; [reflexivity | repeat constructor]
    | eexists [_; _; _]; eexists; split; [reflexivity | repeat constructor] ].

Section Facts.

Context `{Ops : Operations}.

Local Open Scope res1d_scope.

Lemma actual_queries_given (self : Res1D) (q : PyQueries query) (s : Store) :
  _get_actual_queries self (Some q) s = (Returned (normalized q), s, []).
Proof. destruct q; reflexivity. Qed.

Lemma actual_queries_active (self : Res1D) (s : Store) :
  _get_actual_queries self None s = (Returned (queries s), s, []).
Proof. reflexivity. Qed.

(** [read] ends in the store its one reader call ends in: no line of
    [read] touches the store. *)
Lemma read_final_is_readers (self : Res1D) (q : option (PyQueries query))
    (s : Store) :
  final (read self q s) = snd (result_reader_read_all s) \/
  exists qs, final (read self q s) = snd (result_reader_read qs s).
Proof.
  destruct q as [[l | x] |]; run.
  - right. exists l. destruct (result_reader_read l s) as [[df | e] s1]; reflexivity.
  - right. exists [x]. destruct (result_reader_read [x] s) as [[df | e] s1]; reflexivity.
  - destruct (queries s) as [| q0 qs] eqn:Q; simpl; rewrite ?Q.
    + left. destruct (result_reader_read_all s) as [[df | e] s1]; reflexivity.
    + right. exists (q0 :: qs).
      destruct (result_reader_read (q0 :: qs) s) as [[df | e] s1]; reflexivity.
Qed.

(** [extract] on an object that clears after reading leaves both
    containers empty when it returns. *)
Lemma extract_clears_queries (self : Res1D) (file_path : string)
    (q : option (PyQueries query)) (n : Z) (ext : option PyExt) (s : Store) :
  clear_queries_after_reading self = true ->
  outcome (extract self file_path q n ext s) = Returned tt ->
  queries (final (extract self file_path q n ext s)) = [] /\
  queries_ids (final (extract self file_path q n ext s)) = [].
Proof.
  intros Hflag. unfold outcome, final. run. rewrite Hflag.
  destruct q as [[l | x] |]; simpl;
    repeat step; simpl; intros Hret; try discriminate Hret; split; reflexivity.
Qed.

(** C1: on a long-term-statistics file [get_reach_value] raises
    [NotImplementedError] for every reach, chainage, quantity and time;
    the one call it has made by then asks the reader whether the file
    is an LTS file: the time is not converted and the query engine is
    not invoked. *)
Theorem get_reach_value_lts_not_implemented
    (self : Res1D) (reach_name : string) (chainage : number)
    (quantity : string) (time : PyTimeArg) (s s1 : Store) :
  result_reader_is_lts_result_file s = (Returned true, s1) ->
  get_reach_value self reach_name chainage quantity time s =
    (Raised (NotImplementedError
               "The method is not implemented for LTS event statistics."),
     s1, [Ev CallIsLts None]).
Proof.
  intros Hlts. run. rewrite Hlts. reflexivity.
Qed.

(** The calls of [extract] with an [ext] that is not [None], once the
    queries are converted and the factory has returned an extractor: the
    conversion, the factory with that [ext], and [export] on the
    extractor the factory returned. *)
Lemma extract_calls_with_ext
    (self : Res1D) (file_path : string) (q : option (PyQueries query))
    (n : Z) (e : PyExt) (s : Store)
    (qs : list query) (es : entries) (s1 : Store) (x : extractor) (s2 : Store) :
  outcome (_get_actual_queries self q s) = Returned qs ->
  result_network_convert_queries_to_data_entries qs s = (Returned es, s1) ->
  ExtractorCreator_create e file_path es n s1 = (Returned x, s2) ->
  calls (extract self file_path q n (Some e) s) =
    [Ev (CallConvertQueries qs) None;
     Ev (CallCreateExtractor e file_path es n) None;
     Ev (CallExport x) (raised_by (fst (extractor_export x s2)))].
Proof.
  intros Hqs Hconv Hcreate. unfold calls, outcome in *. revert Hqs. run.
  destruct q as [[l | y] |]; simpl; intros Hqs; inversion Hqs; subst qs;
    rewrite Hconv; simpl; rewrite Hcreate; simpl;
    destruct (extractor_export x s2) as [[u | err] s3]; simpl;
    try destruct (clear_queries_after_reading self); reflexivity.
Qed.

(** The factory is called once, with the [ext] given, as soon as the
    queries are converted. *)
Lemma extract_creates_with_ext
    (self : Res1D) (file_path : string) (q : option (PyQueries query))
    (n : Z) (e : PyExt) (s : Store)
    (qs : list query) (es : entries) (s1 : Store) :
  outcome (_get_actual_queries self q s) = Returned qs ->
  result_network_convert_queries_to_data_entries qs s = (Returned es, s1) ->
  created_with (calls (extract self file_path q n (Some e) s)) = [e].
Proof.
  intros Hqs Hconv. unfold calls, outcome in *. revert Hqs. run.
  destruct (clear_queries_after_reading self);
    destruct q as [[l | x] |]; simpl; intros Hqs; inversion Hqs; subst qs;
    rewrite Hconv; simpl; repeat step; reflexivity.
Qed.

(** No call to the factory carries anything but the [ext] given. *)
Lemma extract_creates_only_with_ext
    (self : Res1D) (file_path : string) (q : option (PyQueries query))
    (n : Z) (e : PyExt) (s : Store) (e' : PyExt) :
  In e' (created_with (calls (extract self file_path q n (Some e) s))) ->
  e' = e.
Proof.
  unfold calls. run.
  destruct (clear_queries_after_reading self);
    destruct q as [[l | x] |]; simpl; repeat step;
    intros Hin; repeat (destruct Hin as [Hin | Hin]; try (symmetry; exact Hin));
    contradiction.
Qed.

(** C3: with an [ext] that is not [None], [extract] asks the extractor
    factory for that [ext] and for nothing else, whatever the path: the
    factory is called once the queries are converted, the types asked
    for are the same for any two paths, and the extractor the factory
    returns for that [ext] is the one whose [export] is called.
    [to_csv], [to_dfs0] and [to_txt] do the same with CSV, DFS0 and TXT:
    each calls the factory with its own type, for any path, and exports
    with the extractor made for that type. *)
Theorem extract_explicit_ext_wins
    (self : Res1D) (file_path : string) (q : option (PyQueries query))
    (n : Z) (e : PyExt) (s : Store) :
  (forall e', In e' (created_with (calls (extract self file_path q n (Some e) s)))
              -> e' = e) /\
  (forall qs es s1,
      outcome (_get_actual_queries self q s) = Returned qs ->
      result_network_convert_queries_to_data_entries qs s = (Returned es, s1) ->
      created_with (calls (extract self file_path q n (Some e) s)) = [e]) /\
  (forall file_path',
      created_with (calls (extract self file_path q n (Some e) s)) =
      created_with (calls (extract self file_path' q n (Some e) s))) /\
  (forall qs es s1 x s2,
      outcome (_get_actual_queries self q s) = Returned qs ->
      result_network_convert_queries_to_data_entries qs s = (Returned es, s1) ->
      ExtractorCreator_create e file_path es n s1 = (Returned x, s2) ->
      calls (extract self file_path q n (Some e) s) =
        [Ev (CallConvertQueries qs) None;
         Ev (CallCreateExtractor e file_path es n) None;
         Ev (CallExport x) (raised_by (fst (extractor_export x s2)))]) /\
  (forall e', In e' (created_with (calls (to_csv self file_path q n s)))
              -> e' = ExtType CSV) /\
  (forall e', In e' (created_with (calls (to_dfs0 self file_path q n s)))
              -> e' = ExtType DFS0) /\
  (forall e', In e' (created_with (calls (to_txt self file_path q n s)))
              -> e' = ExtType TXT) /\
  (forall qs es s1,
      outcome (_get_actual_queries self q s) = Returned qs ->
      result_network_convert_queries_to_data_entries qs s = (Returned es, s1) ->
      created_with (calls (to_csv self file_path q n s)) = [ExtType CSV] /\
      created_with (calls (to_dfs0 self file_path q n s)) = [ExtType DFS0] /\
      created_with (calls (to_txt self file_path q n s)) = [ExtType TXT]) /\
  (forall qs es s1 x s2,
      outcome (_get_actual_queries self q s) = Returned qs ->
      result_network_convert_queries_to_data_entries qs s = (Returned es, s1) ->
      ExtractorCreator_create (ExtType CSV) file_path es n s1 = (Returned x, s2) ->
      calls (to_csv self file_path q n s) =
        [Ev (CallConvertQueries qs) None;
         Ev (CallCreateExtractor (ExtType CSV) file_path es n) None;
         Ev (CallExport x) (raised_by (fst (extractor_export x s2)))]) /\
  (forall qs es s1 x s2,
      outcome (_get_actual_queries self q s) = Returned qs ->
      result_network_convert_queries_to_data_entries qs s = (Returned es, s1) ->
      ExtractorCreator_create (ExtType DFS0) file_path es n s1 = (Returned x, s2) ->
      calls (to_dfs0 self file_path q n s) =
        [Ev (CallConvertQueries qs) None;
         Ev (CallCreateExtractor (ExtType DFS0) file_path es n) None;
         Ev (CallExport x) (raised_by (fst (extractor_export x s2)))]) /\
  (forall qs es s1 x s2,
      outcome (_get_actual_queries self q s) = Returned qs ->
      result_network_convert_queries_to_data_entries qs s = (Returned es, s1) ->
      ExtractorCreator_create (ExtType TXT) file_path es n s1 = (Returned x, s2) ->
      calls (to_txt self file_path q n s) =
        [Ev (CallConvertQueries qs) None;
         Ev (CallCreateExtractor (ExtType TXT) file_path es n) None;
         Ev (CallExport x) (raised_by (fst (extractor_export x s2)))]).
Proof.
  split; [intros e'; apply extract_creates_only_with_ext |].
  split; [intros qs es s1; apply extract_creates_with_ext |].
  split.
  { intros file_path'. unfold calls. run.
    destruct (clear_queries_after_reading self);
      destruct q as [[l | x] |]; simpl; repeat step; reflexivity. }
  split; [intros qs es s1 x s2; apply extract_calls_with_ext |].
  split; [intros e'; unfold to_csv; apply extract_creates_only_with_ext |].
  split; [intros e'; unfold to_dfs0; apply extract_creates_only_with_ext |].
  split; [intros e'; unfold to_txt; apply extract_creates_only_with_ext |].
  split.
  { intros qs es s1 Hqs Hconv. unfold to_csv, to_dfs0, to_txt.
    repeat split; apply (extract_creates_with_ext _ _ _ _ _ _ Hqs Hconv). }
  split; [intros qs es s1 x s2; unfold to_csv; apply extract_calls_with_ext |].
  split; [intros qs es s1 x s2; unfold to_dfs0; apply extract_calls_with_ext |].
  intros qs es s1 x s2; unfold to_txt; apply extract_calls_with_ext.
Qed.

(** C4: [read] with a [queries] argument returns what the reader's
    [read] returns on that argument as a list, ends in the store the
    reader ends in, and makes that one call. *)
Theorem read_forwards_to_reader
    (self : Res1D) (q : PyQueries query) (s : Store) :
  read self (Some q) s =
    (fst (result_reader_read (normalized q) s),
     snd (result_reader_read (normalized q) s),
     [Ev (CallRead (normalized q))
         (raised_by (fst (result_reader_read (normalized q) s)))]).
Proof.
  destruct q as [l | x]; run.
  - destruct (result_reader_read l s) as [[df | e] s1]; reflexivity.
  - destruct (result_reader_read [x] s) as [[df | e] s1]; reflexivity.
Qed.

(** C6: without [ext], [extract] runs as it does with the last
    component of [os.path.splitext(file_path)] for [ext]: every call to
    the extractor factory carries that string, and the extractor the
    factory returns is the one whose [export] is called next. *)
Theorem extract_infers_ext_from_path
    (self : Res1D) (file_path : string) (q : option (PyQueries query))
    (n : Z) (s : Store) :
  extract self file_path q n None s =
    extract self file_path q n
      (Some (ExtStr (snd (OsPath.splitext os_name file_path)))) s /\
  (forall e', In e' (created_with (calls (extract self file_path q n None s)))
              -> e' = ExtStr (snd (OsPath.splitext os_name file_path))) /\
  (forall qs es s1 x s2,
      outcome (_get_actual_queries self q s) = Returned qs ->
      result_network_convert_queries_to_data_entries qs s = (Returned es, s1) ->
      ExtractorCreator_create (ExtStr (snd (OsPath.splitext os_name file_path)))
        file_path es n s1 = (Returned x, s2) ->
      calls (extract self file_path q n None s) =
        [Ev (CallConvertQueries qs) None;
         Ev (CallCreateExtractor
               (ExtStr (snd (OsPath.splitext os_name file_path)))
               file_path es n) None;
         Ev (CallExport x) (raised_by (fst (extractor_export x s2)))]).
Proof.
  split; [reflexivity |]. split.
  - intros e'. unfold calls. run.
    destruct (clear_queries_after_reading self);
      destruct q as [[l | x] |]; simpl; repeat step;
      intros Hin; repeat (destruct Hin as [Hin | Hin]; try (symmetry; exact Hin));
      contradiction.
  - intros qs es s1 x s2 Hqs Hconv Hcreate. unfold calls, outcome in *.
    revert Hqs. run.
    destruct q as [[l | y] |]; simpl; intros Hqs; inversion Hqs; subst qs;
      rewrite Hconv; simpl; rewrite Hcreate; simpl;
      destruct (extractor_export x s2) as [[u | err] s3]; simpl;
      try destruct (clear_queries_after_reading self); reflexivity.
Qed.

(** In a run that passes failures through, an exception any call raised
    is the exception the run ends with. *)
Lemma raised_call_ends_run {St A : Type} (r : Outcome A * St * list Event)
    (c : Call) (e : Exn) :
  passes_through r -> In (Ev c (Some e)) (calls r) -> outcome r = Raised e.
Proof.
  unfold passes_through. intros Hr Hin.
  destruct (outcome r) as [a | e0].
  - rewrite Forall_forall in Hr. specialize (Hr _ Hin). discriminate Hr.
  - destruct Hr as [before [c0 [Hcalls Hbefore]]].
    rewrite Hcalls in Hin. apply in_app_or in Hin. destruct Hin as [Hin | Hin].
    + rewrite Forall_forall in Hbefore. specialize (Hbefore _ Hin).
      discriminate Hbefore.
    + destruct Hin as [Hin | []]. inversion Hin. reflexivity.
Qed.

(** C7: [read], [read_all], [save] and [extract] pass failures
    through: when one of them ends with an exception, it is the
    exception raised by the last call it made to a collaborator, every
    earlier call returned, and when it returns no call has raised.
    Nothing is translated, retried or recovered from. *)
Theorem collaborator_failures_pass_through
    (self : Res1D) (q : option (PyQueries query)) (file_path : string)
    (n : Z) (ext : option PyExt) (s : Store) :
  passes_through (read self q s) /\
  passes_through (read_all self s) /\
  passes_through (save self file_path s) /\
  passes_through (extract self file_path q n ext s).
Proof.
  repeat split.
  - destruct q as [[l | x] |]; run;
      try (destruct (queries s) as [| q0 qs]; simpl);
      repeat step; through.
  - run. repeat step; through.
  - run. repeat step; through.
  - run. destruct (clear_queries_after_reading self);
      destruct q as [[l | x] |]; simpl; repeat step; through.
Qed.

(** C8: [read()] with no argument is [read_all()] while no query is
    active, and otherwise the reader's [read] on the active
    queries. *)
Theorem read_without_argument (self : Res1D) (s : Store) :
  (queries s = [] -> read self None s = read_all self s) /\
  (queries s <> [] ->
     read self None s =
       call (CallRead (queries s)) (result_reader_read (queries s)) s).
Proof.
  split; intros Hq.
  - run. rewrite Hq. simpl.
    destruct (result_reader_read_all s) as [[df | e] s1]; reflexivity.
  - run. destruct (queries s) as [| q0 qs] eqn:Q; [contradiction |].
    simpl. rewrite ?Q.
    destruct (result_reader_read (q0 :: qs) s) as [[df | e] s1]; reflexivity.
Qed.

(** C9: [modify(df, p)] is [modify(df)] followed by [save(p)], and
    [modify(df)] makes the one call that writes the frame into the
    result data: it ends in the store that call ends in and saves
    nothing. *)
Theorem modify_with_path_is_modify_then_save
    (self : Res1D) (df : frame) (p : string) (s : Store) :
  modify self df (Some p) s = (modify self df None ;; save self p) s /\
  modify self df None s =
    (match fst (result_writer_modify df s) with
     | Returned _ => Returned tt
     | Raised e => Raised e
     end,
     snd (result_writer_modify df s),
     [Ev (CallModify df) (raised_by (fst (result_writer_modify df s)))]).
Proof.
  split; run.
  - destruct (result_writer_modify df s) as [[u | e] s1]; simpl; [| reflexivity].
    destruct (data_Connection_FilePath_set_Path p s1) as [[u1 | e1] s2]; simpl;
      [| reflexivity].
    destruct (data_Save s2) as [[u2 | e2] s3]; reflexivity.
  - destruct (result_writer_modify df s) as [[u | e] s1]; reflexivity.
Qed.

(** C10: [clear_queries] returns with [result_network.queries] and
    [result_network.queries_ids] both empty, whatever they held, with
    nothing else changed and no collaborator called; [self._queries],
    the same list, is empty with them, so that a [read()] that follows
    is a [read_all()]. *)
Theorem clear_queries_empties_both (self : Res1D) (s : Store) :
  clear_queries self s = (Returned tt, mkStore [] [] (eng s), []) /\
  outcome (_queries (final (clear_queries self s))) = Returned [] /\
  read self None (final (clear_queries self s)) =
    read_all self (final (clear_queries self s)).
Proof.
  split; [reflexivity |]. split; [reflexivity |].
  unfold final. run.
  destruct (result_reader_read_all (mkStore [] [] (eng s))) as [[df | e] s1];
    reflexivity.
Qed.

End Facts.

(** ** The facade over the modelled engine *)

Section OnEngine1D.

Import Engine1D.

Local Open Scope Z_scope.
Local Open Scope string_scope.

(** [os.path.splitext] on a few paths. *)
Example splitext_csv : OsPath.splitext OsPath.Posix "results/out.csv" = ("results/out", ".csv").
Proof. reflexivity. Qed.

Example splitext_no_extension : OsPath.splitext OsPath.Posix "results.d/out" = ("results.d/out", "").
Proof. reflexivity. Qed.

Example splitext_leading_dots : OsPath.splitext OsPath.Posix "results/..hidden" = ("results/..hidden", "").
Proof. reflexivity. Qed.

Example splitext_last_dot : OsPath.splitext OsPath.Posix "out.tar.dfs0" = ("out.tar", ".dfs0").
Proof. reflexivity. Qed.

Example splitext_nt_separators :
  OsPath.splitext OsPath.Nt "C:\out.d\res" = ("C:\out.d\res", "") /\
  OsPath.splitext OsPath.Nt "C:/out.d\res.txt" = ("C:/out.d\res", ".txt") /\
  OsPath.splitext OsPath.Posix "out.d\res" = ("out", ".d\res").
Proof. repeat split. Qed.

Lemma filter_all (l : list Series) : filter (fun _ => true) l = l.
Proof.
  induction l as [| x l IH]; simpl; [reflexivity | now rewrite IH].
Qed.

Lemma keep_without_filters (s : Series) : keep None None None s = true.
Proof. unfold keep. destruct (q_location (s_key s)); reflexivity. Qed.

(** Without filters the whole file is loaded. *)
Lemma load_without_filters (f : ResultData) : load None None None f = f.
Proof.
  destruct f as [b l]. unfold load. simpl. f_equal.
  rewrite <- (filter_all l) at 2. apply filter_ext. intros s.
  apply keep_without_filters.
Qed.

(** Three empty filter lists load what no filter loads. *)
Lemma load_empty_filters (f : ResultData) :
  load (Some []) (Some []) (Some []) f = load None None None f.
Proof. reflexivity. Qed.

(** [to_csv] to a path that ends in [.txt] writes a CSV file. *)
Example to_csv_to_txt_path :
  exported (eng (final (@to_csv colls ops (res1d false) "out.txt"
                          (Some (QSingle water_level_n1)) 1 network_store)))
  = [("out.txt", CSV, [mkSeries water_level_n1 [10; 11; 12]])].
Proof. reflexivity. Qed.

(** A query for a series the file does not hold: the reader's
    [KeyError] is what [read] ends with. *)
Example read_unknown_query :
  @read colls ops (res1d true)
    (Some (QSingle (mkQuery Node "WaterLevel" "n9" None))) network_store
  = (Raised (PyExn "KeyError" "n9"), network_store,
     [Ev (H := colls) (@CallRead colls [mkQuery Node "WaterLevel" "n9" None])
         (Some (PyExn "KeyError" "n9"))]).
Proof. reflexivity. Qed.

(** An extension no extractor is made for: the factory's exception is
    what [extract] ends with, and the active query stays. *)
Example extract_unsupported_format :
  outcome (@extract colls ops (res1d true) "out.xyz" None 1 None network_store_active)
    = Raised (PyExn "ValueError" ".xyz") /\
  queries (final (@extract colls ops (res1d true) "out.xyz" None 1 None
                    network_store_active)) = [water_level_n1].
Proof. split; reflexivity. Qed.

(** A path that names no file: the creator's exception is what the
    constructor ends with, and nothing else is called. *)
Example construct_missing_file :
  @construct colls ops (Some "nowhere.res1d") false false None None None
    ":" true true QUERY fresh
  = (Raised (PyExn "FileNotFoundError" "nowhere.res1d"),
     [Ev (H := colls)
         (@CallCreateReader colls QUERY (Some "nowhere.res1d") false false
            None None None ":" true)
         (Some (PyExn "FileNotFoundError" "nowhere.res1d"))]).
Proof. reflexivity. Qed.

(** The rejection of [get_reach_value] on an LTS file is no failure
    passed through: the one call made before it returned. *)
Example lts_rejection_is_raised_by_res1d :
  ~ passes_through
      (@get_reach_value colls ops (res1d true) "r1" 50 "Discharge"
         (@NotDateTime colls 1) lts_store).
Proof.
  unfold passes_through, outcome, calls. simpl.
  intros [before [c [Hcalls _]]].
  destruct before as [| ev [| ev' before]]; discriminate Hcalls.
Qed.

(** The constructor on the network file gives the store used below. *)
Example construct_network :
  @construct colls ops (Some "network.res1d") false false None None None
    ":" true true QUERY fresh
  = (Returned (res1d true, network_store),
     [Ev (H := colls)
         (@CallCreateReader colls QUERY (Some "network.res1d") false false
            None None None ":" true) None;
      Ev (H := colls) CallNewNetwork None;
      Ev (H := colls) CallNewWriter None]).
Proof. reflexivity. Qed.

(** C2: an object made with [clear_queries_after_reading=True] and one
    active query: [read()] returns that query's column and both
    containers still hold what they held. *)
Theorem read_leaves_queries_active :
  clear_queries_after_reading (res1d true) = true /\
  outcome (@read colls ops (res1d true) None network_store_active)
    = Returned [mkSeries water_level_n1 [10; 11; 12]] /\
  queries (final (@read colls ops (res1d true) None network_store_active))
    = [water_level_n1] /\
  queries_ids (final (@read colls ops (res1d true) None network_store_active))
    = ["WaterLevel:n1"].
Proof. repeat split. Qed.

(** The same object and store: [extract] does empty them. *)
Example extract_empties_queries :
  outcome (@extract colls ops (res1d true) "out.csv" None 1 None network_store_active)
    = Returned tt /\
  queries (final (@extract colls ops (res1d true) "out.csv" None 1 None
                    network_store_active)) = [] /\
  queries_ids (final (@extract colls ops (res1d true) "out.csv" None 1 None
                        network_store_active)) = [].
Proof. repeat split. Qed.

(** C5: on every installation, [Res1D] made with [reaches=[]],
    [nodes=[]], [catchments=[]] reads what [Res1D] made with the three
    filters left [None] reads, and leaves the same store behind. *)
Theorem empty_filters_read_as_no_filters
    (file_path : option string) (lazy_load header_load : bool)
    (col_name_delimiter : string)
    (put_chainage_in_col_name clear_queries_after_reading_ : bool)
    (t : ResultReaderType) (q : option (PyQueries QueryData)) (e : Engine) :
  @construct_then_read colls ops file_path lazy_load header_load
    (Some []) (Some []) (Some []) col_name_delimiter put_chainage_in_col_name
    clear_queries_after_reading_ t q e
  = @construct_then_read colls ops file_path lazy_load header_load
      None None None col_name_delimiter put_chainage_in_col_name
      clear_queries_after_reading_ t q e
  /\
  fst (@construct colls ops file_path lazy_load header_load
         (Some []) (Some []) (Some []) col_name_delimiter
         put_chainage_in_col_name clear_queries_after_reading_ t e)
  = fst (@construct colls ops file_path lazy_load header_load
           None None None col_name_delimiter
           put_chainage_in_col_name clear_queries_after_reading_ t e).
Proof.
  unfold construct_then_read, construct, __init__, bind, call, ret. simpl.
  unfold create_reader.
  destruct file_path as [p |]; [| split; reflexivity].
  destruct (lookup_file p (disk e)) as [f |]; [| split; reflexivity].
  rewrite load_empty_filters. split; reflexivity.
Qed.

(** *** The theorems above at concrete inputs *)

Lemma get_reach_value_lts_not_implemented_witness :
  @result_reader_is_lts_result_file colls ops lts_store
    = (Returned true, lts_store) /\
  @get_reach_value colls ops (res1d true) "r1" 50 "Discharge"
    (@NotDateTime colls 1) lts_store
    = (Raised (NotImplementedError
                 "The method is not implemented for LTS event statistics."),
       lts_store, [Ev (H := colls) CallIsLts None]).
Proof.
  split; [reflexivity |].
  apply (@get_reach_value_lts_not_implemented colls ops); reflexivity.
Defined.

Lemma extract_explicit_ext_wins_witness :
  outcome (@_get_actual_queries colls (res1d true) None network_store_active)
    = Returned [water_level_n1] /\
  @result_network_convert_queries_to_data_entries colls ops [water_level_n1]
    network_store_active = (Returned [water_level_n1], network_store_active) /\
  @ExtractorCreator_create colls ops (ExtType DFS0) "out.txt" [water_level_n1]
    1 network_store_active
    = (Returned (mkExtractor DFS0 "out.txt" [water_level_n1] 1),
       network_store_active) /\
  created_with
    (calls (@extract colls ops (res1d true) "out.txt" None 1 (Some (ExtType DFS0))
              network_store_active)) = [ExtType DFS0] /\
  calls (@to_dfs0 colls ops (res1d true) "out.txt" None 1 network_store_active)
    = [Ev (H := colls) (@CallConvertQueries colls [water_level_n1]) None;
       Ev (H := colls)
          (@CallCreateExtractor colls (ExtType DFS0) "out.txt"
             [water_level_n1] 1) None;
       Ev (H := colls)
          (@CallExport colls (mkExtractor DFS0 "out.txt" [water_level_n1] 1))
          (raised_by
             (fst (@extractor_export colls ops
                     (mkExtractor DFS0 "out.txt" [water_level_n1] 1)
                     network_store_active)))].
Proof.
  split; [reflexivity |]. split; [reflexivity |]. split; [reflexivity |].
  pose proof (@extract_explicit_ext_wins colls ops (res1d true) "out.txt" None
                1 (ExtType DFS0) network_store_active)
    as [_ [Hcreated [_ [_ [_ [_ [_ [_ [_ [Hdfs0 _]]]]]]]]]].
  split.
  - apply (Hcreated [water_level_n1] [water_level_n1] network_store_active);
      reflexivity.
  - apply (Hdfs0 [water_level_n1] [water_level_n1] network_store_active
             (mkExtractor DFS0 "out.txt" [water_level_n1] 1)
             network_store_active); reflexivity.
Defined.

Lemma extract_infers_ext_from_path_witness :
  outcome (@_get_actual_queries colls (res1d false) None network_store_active)
    = Returned [water_level_n1] /\
  @result_network_convert_queries_to_data_entries colls ops [water_level_n1]
    network_store_active = (Returned [water_level_n1], network_store_active) /\
  @ExtractorCreator_create colls ops (ExtStr (snd (OsPath.splitext OsPath.Posix "out.csv")))
    "out.csv" [water_level_n1] 1 network_store_active
    = (Returned (mkExtractor CSV "out.csv" [water_level_n1] 1),
       network_store_active) /\
  calls (@extract colls ops (res1d false) "out.csv" None 1 None
           network_store_active)
    = [Ev (H := colls) (@CallConvertQueries colls [water_level_n1]) None;
       Ev (H := colls)
          (@CallCreateExtractor colls (ExtStr (snd (OsPath.splitext OsPath.Posix "out.csv")))
             "out.csv" [water_level_n1] 1) None;
       Ev (H := colls)
          (@CallExport colls (mkExtractor CSV "out.csv" [water_level_n1] 1))
          (raised_by
             (fst (@extractor_export colls ops
                     (mkExtractor CSV "out.csv" [water_level_n1] 1)
                     network_store_active)))].
Proof.
  split; [reflexivity |]. split; [reflexivity |]. split; [reflexivity |].
  apply (proj2 (proj2 (@extract_infers_ext_from_path colls ops (res1d false)
                         "out.csv" None 1 network_store_active))
           [water_level_n1] [water_level_n1] network_store_active);
    reflexivity.
Defined.

Lemma read_without_argument_witness :
  (queries network_store = [] /\
   @read colls ops (res1d true) None network_store
     = @read_all colls ops (res1d true) network_store) /\
  (queries network_store_active <> [] /\
   @read colls ops (res1d true) None network_store_active
     = call (@CallRead colls (queries network_store_active))
         (@result_reader_read colls ops (queries network_store_active))
         network_store_active).
Proof.
  split.
  - split; [reflexivity |].
    apply (proj1 (@read_without_argument colls ops (res1d true) network_store)).
    reflexivity.
  - split; [discriminate |].
    apply (proj2 (@read_without_argument colls ops (res1d true)
                    network_store_active)).
    discriminate.
Defined.

End OnEngine1D.

(** ** More of the facade, for any collaborators *)

Section MoreFacts.

Context `{Ops : Operations}.

Local Open Scope res1d_scope.

(** X1: on a file that is not an LTS file, a [time] that is a
    [System.DateTime] already goes to [GetReachValue] as it is: the run
    is the LTS check followed by that one query, and its result and
    store are the query's. *)
Theorem get_reach_value_with_datetime
    (self : Res1D) (reach_name : string) (chainage : number)
    (quantity : string) (d : datetime) (s s1 : Store) :
  result_reader_is_lts_result_file s = (Returned false, s1) ->
  get_reach_value self reach_name chainage quantity (IsDateTime d) s =
    (fst (query_GetReachValue reach_name chainage quantity d s1),
     snd (query_GetReachValue reach_name chainage quantity d s1),
     [Ev CallIsLts None;
      Ev (CallGetReachValue reach_name chainage quantity d)
         (raised_by (fst (query_GetReachValue reach_name chainage quantity d s1)))]).
Proof.
  intros Hlts. run. rewrite Hlts. simpl.
  destruct (query_GetReachValue reach_name chainage quantity d s1)
    as [[v | e] s2]; reflexivity.
Qed.

(** X2: on a file that is not an LTS file, any other [time] is converted
    first and the query is made with the converted value; when the
    conversion raises, the query engine is not invoked and the
    exception is the conversion's. *)
Theorem get_reach_value_converts_time
    (self : Res1D) (reach_name : string) (chainage : number)
    (quantity : string) (t : pytime) (s s1 : Store) :
  result_reader_is_lts_result_file s = (Returned false, s1) ->
  (forall d s2,
      to_dotnet_datetime t s1 = (Returned d, s2) ->
      get_reach_value self reach_name chainage quantity (NotDateTime t) s =
        (fst (query_GetReachValue reach_name chainage quantity d s2),
         snd (query_GetReachValue reach_name chainage quantity d s2),
         [Ev CallIsLts None;
          Ev (CallToDotnetDatetime t) None;
          Ev (CallGetReachValue reach_name chainage quantity d)
             (raised_by
                (fst (query_GetReachValue reach_name chainage quantity d s2)))]))
  /\
  (forall e s2,
      to_dotnet_datetime t s1 = (Raised e, s2) ->
      get_reach_value self reach_name chainage quantity (NotDateTime t) s =
        (Raised e, s2,
         [Ev CallIsLts None; Ev (CallToDotnetDatetime t) (Some e)])).
Proof.
  intros Hlts. split.
  - intros d s2 Hconv. run. rewrite Hlts. simpl. rewrite Hconv. simpl.
    destruct (query_GetReachValue reach_name chainage quantity d s2)
      as [[v | e] s3]; reflexivity.
  - intros e s2 Hconv. run. rewrite Hlts. simpl. rewrite Hconv. reflexivity.
Qed.

(** X3: the rejection on an LTS file is the only exception
    [get_reach_value] raises of its own: its run passes failures through
    exactly when the LTS check does not return [True]. *)
Theorem get_reach_value_passes_through_unless_lts
    (self : Res1D) (reach_name : string) (chainage : number)
    (quantity : string) (time : PyTimeArg) (s : Store) :
  passes_through (get_reach_value self reach_name chainage quantity time s)
  <-> fst (result_reader_is_lts_result_file s) <> Returned true.
Proof.
  split.
  - intros Hpass Hlts.
    destruct (result_reader_is_lts_result_file s) as [o s1] eqn:E.
    simpl in Hlts. subst o. revert Hpass. run. rewrite E.
    unfold passes_through, outcome, calls. simpl. intros Hpass.
    destruct Hpass as [before [c [Hcalls _]]].
    destruct before as [| ev [| ev' before]]; discriminate Hcalls.
  - intros Hlts. run.
    destruct (result_reader_is_lts_result_file s) as [[[|] | e] s1] eqn:E;
      simpl in *.
    + contradiction Hlts. reflexivity.
    + destruct time as [d | t]; simpl; repeat step; through.
    + through.
Qed.

(** X4: the constructor passes failures through, and when the result
    reader cannot be made neither the result network nor the result
    writer is: the exception is the creator's and its call is the only
    one. *)
Theorem constructor_stops_at_first_failure
    (file_path : option string) (lazy_load header_load : bool)
    (reaches nodes catchments : option (list string))
    (col_name_delimiter : string) (put_chainage clear : bool)
    (t : ResultReaderType) (e : engine) :
  passes_through
    (__init__ file_path lazy_load header_load reaches nodes catchments
       col_name_delimiter put_chainage clear t e) /\
  (forall x e1,
      ResultReaderCreator_create t file_path lazy_load header_load reaches
        nodes catchments col_name_delimiter put_chainage e = (Raised x, e1) ->
      construct file_path lazy_load header_load reaches nodes catchments
        col_name_delimiter put_chainage clear t e =
        (Raised x,
         [Ev (CallCreateReader t file_path lazy_load header_load reaches
                nodes catchments col_name_delimiter put_chainage)
             (Some x)])).
Proof.
  split.
  - unfold __init__, bind, call, ret. repeat step; through.
  - intros x e1 Hcreate. unfold construct, __init__, bind, call, ret.
    rewrite Hcreate. reflexivity.
Qed.

(** X5: when the constructor returns, the reader, the network and the
    writer were made in that order and all three returned; the object
    carries the [clear_queries_after_reading] it was given and no cached
    start or end time, and its store starts with the containers the
    network made. *)
Theorem constructed_object
    (file_path : option string) (lazy_load header_load : bool)
    (reaches nodes catchments : option (list string))
    (col_name_delimiter : string) (put_chainage clear : bool)
    (t : ResultReaderType) (e : engine)
    (self : Res1D) (s : Store) (tr : list Event) :
  construct file_path lazy_load header_load reaches nodes catchments
    col_name_delimiter put_chainage clear t e = (Returned (self, s), tr) ->
  self = mkRes1D None None clear /\
  tr = [Ev (CallCreateReader t file_path lazy_load header_load reaches
              nodes catchments col_name_delimiter put_chainage) None;
        Ev CallNewNetwork None;
        Ev CallNewWriter None] /\
  exists e1 e2 net,
    ResultReaderCreator_create t file_path lazy_load header_load reaches
      nodes catchments col_name_delimiter put_chainage e = (Returned tt, e1) /\
    ResultNetwork_new e1 = (Returned net, e2) /\
    ResultWriter_new e2 = (Returned tt, eng s) /\
    queries s = fst net /\ queries_ids s = snd net.
Proof.
  unfold construct, __init__, bind, call, ret.
  destruct (ResultReaderCreator_create t file_path lazy_load header_load
              reaches nodes catchments col_name_delimiter put_chainage e)
    as [[[] | x] e1] eqn:E1; simpl; [| discriminate].
  destruct (ResultNetwork_new e1) as [[[qs ids] | x] e2] eqn:E2; simpl;
    [| discriminate].
  destruct (ResultWriter_new e2) as [[[] | x] e3] eqn:E3; simpl;
    [| discriminate].
  intros Hret. inversion Hret; subst. simpl.
  split; [reflexivity |]. split; [reflexivity |].
  exists e1, e2, (qs, ids). repeat split; assumption.
Qed.

(** X7: [extract] stops at the first stage that raises: the stages after
    it are not called, the exception is that stage's, and the run ends
    in the store that stage left, whatever [clear_queries_after_reading]
    is: nothing is cleared. *)
Theorem extract_stops_at_first_failure
    (self : Res1D) (file_path : string) (q : option (PyQueries query))
    (n : Z) (ext : PyExt) (s : Store) (qs : list query) :
  outcome (_get_actual_queries self q s) = Returned qs ->
  (forall e s1,
      result_network_convert_queries_to_data_entries qs s = (Raised e, s1) ->
      extract self file_path q n (Some ext) s =
        (Raised e, s1, [Ev (CallConvertQueries qs) (Some e)])) /\
  (forall es s1 e s2,
      result_network_convert_queries_to_data_entries qs s = (Returned es, s1) ->
      ExtractorCreator_create ext file_path es n s1 = (Raised e, s2) ->
      extract self file_path q n (Some ext) s =
        (Raised e, s2,
         [Ev (CallConvertQueries qs) None;
          Ev (CallCreateExtractor ext file_path es n) (Some e)])) /\
  (forall es s1 x s2 e s3,
      result_network_convert_queries_to_data_entries qs s = (Returned es, s1) ->
      ExtractorCreator_create ext file_path es n s1 = (Returned x, s2) ->
      extractor_export x s2 = (Raised e, s3) ->
      extract self file_path q n (Some ext) s =
        (Raised e, s3,
         [Ev (CallConvertQueries qs) None;
          Ev (CallCreateExtractor ext file_path es n) None;
          Ev (CallExport x) (Some e)])).
Proof.
  intros Hqs.
  assert (Hact : _get_actual_queries self q s = (Returned qs, s, [])).
  { destruct q as [[l | y] |]; unfold outcome in Hqs; simpl in Hqs;
      inversion Hqs; reflexivity. }
  clear Hqs. split; [| split].
  - intros e s1 Hconv. unfold extract. unfold bind at 1. rewrite Hact.
    unfold bind, call. cbv beta iota. rewrite Hconv. reflexivity.
  - intros es s1 e s2 Hconv Hcreate.
    unfold extract. unfold bind at 1. rewrite Hact.
    unfold bind, call. cbv beta iota.
    rewrite Hconv. cbv beta iota. rewrite Hcreate. reflexivity.
  - intros es s1 x s2 e s3 Hconv Hcreate Hexp.
    unfold extract. unfold bind at 1. rewrite Hact.
    unfold bind, call. cbv beta iota. rewrite Hconv. cbv beta iota.
    rewrite Hcreate. cbv beta iota. rewrite Hexp. reflexivity.
Qed.

(** X8: with [clear_queries_after_reading] false, an [extract] whose
    three stages return ends in the store [export] left: the active
    queries are not touched by [Res1D]. *)
Theorem extract_without_clearing
    (self : Res1D) (file_path : string) (q : option (PyQueries query))
    (n : Z) (ext : PyExt) (s : Store) (qs : list query)
    (es : entries) (s1 : Store) (x : extractor) (s2 s3 : Store) :
  clear_queries_after_reading self = false ->
  outcome (_get_actual_queries self q s) = Returned qs ->
  result_network_convert_queries_to_data_entries qs s = (Returned es, s1) ->
  ExtractorCreator_create ext file_path es n s1 = (Returned x, s2) ->
  extractor_export x s2 = (Returned tt, s3) ->
  extract self file_path q n (Some ext) s =
    (Returned tt, s3,
     [Ev (CallConvertQueries qs) None;
      Ev (CallCreateExtractor ext file_path es n) None;
      Ev (CallExport x) None]).
Proof.
  intros Hflag Hqs Hconv Hcreate Hexp.
  assert (Hact : _get_actual_queries self q s = (Returned qs, s, [])).
  { destruct q as [[l | y] |]; unfold outcome in Hqs; simpl in Hqs;
      inversion Hqs; reflexivity. }
  unfold extract. unfold bind at 1. rewrite Hact.
  unfold bind, call, ret. cbv beta iota. rewrite Hconv. cbv beta iota.
  rewrite Hcreate. cbv beta iota. rewrite Hexp. cbv beta iota.
  rewrite Hflag. reflexivity.
Qed.

(** X9: with no [queries] argument and no active query, [read] reads
    everything, but [extract] does not fall back to everything: it
    converts the empty list of queries. *)
Theorem nothing_active_read_all_extract_none
    (self : Res1D) (file_path : string) (n : Z) (ext : option PyExt)
    (s : Store) :
  queries s = [] ->
  map ev_call (calls (read self None s)) = [CallReadAll] /\
  exists rest,
    map ev_call (calls (extract self file_path None n ext s)) =
      CallConvertQueries [] :: rest.
Proof.
  intros Hq. split.
  - unfold calls. run. rewrite Hq. simpl.
    destruct (result_reader_read_all s) as [[df | e] s1]; reflexivity.
  - unfold calls. run. rewrite Hq.
    destruct (clear_queries_after_reading self); repeat step;
      eexists; reflexivity.
Qed.

(** X10: [modify] stops at the first failure: when the writer raises,
    the path is not set and nothing is saved, with or without a
    [file_path]; when setting the path raises, [Save] is not called. *)
Theorem modify_stops_at_first_failure
    (self : Res1D) (df : frame) (s : Store) :
  (forall file_path e s1,
      result_writer_modify df s = (Raised e, s1) ->
      modify self df file_path s =
        (Raised e, s1, [Ev (CallModify df) (Some e)])) /\
  (forall p s1 e s2,
      result_writer_modify df s = (Returned tt, s1) ->
      data_Connection_FilePath_set_Path p s1 = (Raised e, s2) ->
      modify self df (Some p) s =
        (Raised e, s2,
         [Ev (CallModify df) None; Ev (CallSetPath p) (Some e)])).
Proof.
  split.
  - intros file_path e s1 Hmod. run. rewrite Hmod. reflexivity.
  - intros p s1 e s2 Hmod Hset. run. rewrite Hmod. simpl. rewrite Hset.
    reflexivity.
Qed.

(** X11: [modify], [to_csv], [to_dfs0] and [to_txt] pass failures
    through, like the methods they are made of. *)
Theorem modify_and_exports_pass_through
    (self : Res1D) (df : frame) (path : option string) (file_path : string)
    (q : option (PyQueries query)) (n : Z) (s : Store) :
  passes_through (modify self df path s) /\
  passes_through (to_csv self file_path q n s) /\
  passes_through (to_dfs0 self file_path q n s) /\
  passes_through (to_txt self file_path q n s).
Proof.
  repeat split.
  - destruct path as [p |]; run; repeat step; through.
  - run. destruct (clear_queries_after_reading self);
      destruct q as [[l | x] |]; simpl; repeat step; through.
  - run. destruct (clear_queries_after_reading self);
      destruct q as [[l | x] |]; simpl; repeat step; through.
  - run. destruct (clear_queries_after_reading self);
      destruct q as [[l | x] |]; simpl; repeat step; through.
Qed.

(** X12: after an [extract] that returns on an object that clears after
    reading, [read()] is [read_all()]: the queries that were active are
    gone. *)
Theorem read_after_extract_reads_all
    (self : Res1D) (file_path : string) (q : option (PyQueries query))
    (n : Z) (ext : option PyExt) (s : Store) :
  clear_queries_after_reading self = true ->
  outcome (extract self file_path q n ext s) = Returned tt ->
  read self None (final (extract self file_path q n ext s)) =
    read_all self (final (extract self file_path q n ext s)).
Proof.
  intros Hflag Hret.
  assert (Hq : queries (final (extract self file_path q n ext s)) = []).
  { revert Hret. unfold outcome, final. run. rewrite Hflag.
    destruct q as [[l | x] |]; simpl; repeat step; simpl;
      intros Hret; try discriminate Hret; reflexivity. }
  generalize dependent (final (extract self file_path q n ext s)).
  intros s' Hq. run. rewrite Hq. simpl.
  destruct (result_reader_read_all s') as [[df | e] s1]; reflexivity.
Qed.

End MoreFacts.

(** ** The extension [extract] cuts from a path *)

Section PathFacts.

Local Open Scope Z_scope.

Lemma string_of_list_ascii_app (a b : list ascii) :
  string_of_list_ascii (a ++ b) =
    (string_of_list_ascii a ++ string_of_list_ascii b)%string.
Proof.
  induction a as [| x a IH]; simpl; [reflexivity | now rewrite IH].
Qed.

Lemma in_skipn (A : Type) (x : A) (n : nat) (l : list A) :
  In x (skipn n l) -> In x l.
Proof.
  intros Hin. rewrite <- (firstn_skipn n l). apply in_or_app. now right.
Qed.

Lemma in_skipn_le (A : Type) (x : A) (n m : nat) (l : list A) :
  (n <= m)%nat -> In x (skipn m l) -> In x (skipn n l).
Proof.
  intros Hle Hin. replace m with ((m - n) + n)%nat in Hin by lia.
  rewrite <- skipn_skipn in Hin. exact (in_skipn _ _ _ Hin).
Qed.

Lemma skipn_nth_error (A : Type) (l : list A) (k : nat) (x : A) :
  nth_error l k = Some x -> skipn k l = x :: skipn (S k) l.
Proof.
  revert k. induction l as [| y l IH]; intros [| k] Hnth; simpl in *;
    try discriminate.
  - now inversion Hnth.
  - now apply IH.
Qed.

(** What [rfind] returns: the starting value when the character does not
    occur, else the index of an occurrence with none after it. *)
Lemma rfind_from_spec (p : list ascii) (c : ascii) :
  forall i found,
    (OsPath.rfind_from p c i found = found /\ ~ In c p) \/
    (i <= OsPath.rfind_from p c i found < i + Z.of_nat (List.length p) /\
     nth_error p (Z.to_nat (OsPath.rfind_from p c i found - i)) = Some c /\
     ~ In c (skipn (S (Z.to_nat (OsPath.rfind_from p c i found - i))) p)).
Proof.
  induction p as [| x rest IH]; intros i found; simpl.
  - left. split; [reflexivity | tauto].
  - destruct (IH (i + 1) (if Ascii.eqb x c then i else found))
      as [[Hr Hno] | [Hb [Hnth Hno]]].
    + rewrite Hr. destruct (Ascii.eqb x c) eqn:E.
      * apply Ascii.eqb_eq in E. subst x. right.
        replace (i - i) with 0 by lia. simpl.
        split; [lia |]. split; [reflexivity | exact Hno].
      * apply Ascii.eqb_neq in E. left. split; [reflexivity |].
        intros [Hx | Hin]; [now apply E | now apply Hno].
    + right.
      set (r := OsPath.rfind_from rest c (i + 1)
                  (if Ascii.eqb x c then i else found)) in *.
      replace (Z.to_nat (r - i)) with (S (Z.to_nat (r - (i + 1)))) by lia.
      simpl. split; [lia |]. split; assumption.
Qed.

Lemma rfind_spec (p : list ascii) (c : ascii) :
  (OsPath.rfind p c = -1 /\ ~ In c p) \/
  (0 <= OsPath.rfind p c < Z.of_nat (List.length p) /\
   nth_error p (Z.to_nat (OsPath.rfind p c)) = Some c /\
   ~ In c (skipn (S (Z.to_nat (OsPath.rfind p c))) p)).
Proof.
  unfold OsPath.rfind.
  destruct (rfind_from_spec p c 0 (-1)) as [H | [Hb [Hnth Hno]]];
    [left; exact H | right].
  rewrite Z.sub_0_r in Hnth, Hno. simpl in Hb. repeat split; tauto.
Qed.

(** No [c] from the index after the last [c] on, nor from any later
    index. *)
Lemma none_after_rfind (p : list ascii) (c : ascii) (k : Z) :
  OsPath.rfind p c < k -> ~ In c (skipn (Z.to_nat k) p).
Proof.
  intros Hlt Hin.
  destruct (rfind_spec p c) as [[_ Hno] | [Hb [_ Hno]]].
  - apply Hno. exact (in_skipn _ _ _ Hin).
  - apply Hno. apply in_skipn_le with (m := Z.to_nat k); [lia | exact Hin].
Qed.

Lemma skip_leading_dots_steps (p : list ascii) (c : ascii) (i : Z) (n : nat) :
  OsPath.skip_leading_dots p c i n = true -> (0 < n)%nat.
Proof. destruct n; simpl; [discriminate | lia]. Qed.

(** The two results of [_splitext] when it finds an extension. *)
Lemma _splitext_cases (path : string) (sep_ : ascii) (altsep_ : option ascii)
    (extsep_ : ascii) :
  OsPath._splitext path sep_ altsep_ extsep_ = (path, EmptyString) \/
  exists (k : nat) (rest : list ascii),
    let p := list_ascii_of_string path in
    OsPath._splitext path sep_ altsep_ extsep_ =
      (string_of_list_ascii (firstn k p),
       String extsep_ (string_of_list_ascii rest)) /\
    (0 < k)%nat /\ (k < List.length p)%nat /\
    skipn k p = extsep_ :: rest /\
    ~ In extsep_ rest /\ ~ In sep_ rest /\
    (forall a, altsep_ = Some a -> ~ In a rest).
Proof.
  unfold OsPath._splitext.
  set (p := list_ascii_of_string path).
  set (sepIndex := match altsep_ with
                   | Some a => Z.max (OsPath.rfind p sep_) (OsPath.rfind p a)
                   | None => OsPath.rfind p sep_
                   end).
  set (dotIndex := OsPath.rfind p extsep_).
  destruct ((sepIndex <? dotIndex)
            && OsPath.skip_leading_dots p extsep_ (sepIndex + 1)
                 (Z.to_nat (dotIndex - (sepIndex + 1)))) eqn:C;
    [| left; reflexivity].
  right. apply andb_prop in C. destruct C as [Hlt Hloop].
  apply Z.ltb_lt in Hlt. apply skip_leading_dots_steps in Hloop.
  assert (Hsep : OsPath.rfind p sep_ <= sepIndex).
  { unfold sepIndex. destruct altsep_; lia. }
  assert (Hsep_ge : -1 <= OsPath.rfind p sep_).
  { destruct (rfind_spec p sep_) as [[Hr _] | [Hb _]]; lia. }
  pose proof (rfind_spec p extsep_) as Hdot. fold dotIndex in Hdot.
  destruct Hdot as [[Hr _] | [Hb [Hnth Hno]]]; [lia |].
  exists (Z.to_nat dotIndex), (skipn (S (Z.to_nat dotIndex)) p). cbv zeta.
  fold p.
  split; [rewrite (skipn_nth_error _ _ Hnth); reflexivity |].
  split; [lia |]. split; [lia |].
  split; [exact (skipn_nth_error _ _ Hnth) |]. split; [exact Hno |]. split.
  - replace (S (Z.to_nat dotIndex)) with (Z.to_nat (dotIndex + 1)) by lia.
    apply none_after_rfind. lia.
  - intros a Ha.
    replace (S (Z.to_nat dotIndex)) with (Z.to_nat (dotIndex + 1)) by lia.
    apply none_after_rfind. unfold sepIndex in Hlt. rewrite Ha in Hlt. lia.
Qed.

(** X13: the two parts [os.path.splitext] cuts a path into give the
    path back when joined, on either platform. *)
Theorem splitext_joins_back (os : OsPath.Platform) (path : string) :
  (fst (OsPath.splitext os path) ++ snd (OsPath.splitext os path))%string = path.
Proof.
  unfold OsPath.splitext.
  destruct (_splitext_cases path (OsPath.sep os) (OsPath.altsep os) OsPath.extsep)
    as [E | [k [rest [E [_ [_ [Hskip _]]]]]]]; rewrite E; simpl.
  - clear E. induction path as [| c path IH]; simpl; [reflexivity | now rewrite IH].
  - change (String OsPath.extsep (string_of_list_ascii rest))
      with (string_of_list_ascii (OsPath.extsep :: rest)).
    rewrite <- Hskip, <- string_of_list_ascii_app, firstn_skipn.
    apply string_of_list_ascii_of_string.
Qed.

(** X14: the extension is empty, or it is a period followed by
    characters none of which is a period or a path separator of the
    platform. *)
Theorem splitext_extension_shape (os : OsPath.Platform) (path : string) :
  snd (OsPath.splitext os path) = EmptyString \/
  exists rest,
    snd (OsPath.splitext os path) = String "."%char rest /\
    forall c, In c (list_ascii_of_string rest) ->
              c <> "."%char /\ c <> OsPath.sep os /\ Some c <> OsPath.altsep os.
Proof.
  unfold OsPath.splitext.
  destruct (_splitext_cases path (OsPath.sep os) (OsPath.altsep os) OsPath.extsep)
    as [E | [k [rest [E [_ [_ [_ [Hdot [Hsep Halt]]]]]]]]]; rewrite E; simpl.
  - left. reflexivity.
  - right. exists (string_of_list_ascii rest). split; [reflexivity |].
    intros c Hin. rewrite list_ascii_of_string_of_list_ascii in Hin.
    repeat split.
    + intros ->. exact (Hdot Hin).
    + intros ->. exact (Hsep Hin).
    + intros Ha. symmetry in Ha. exact (Halt c Ha Hin).
Qed.

(** X15: the extension never takes the whole name: the root is empty
    only for the empty path; and a path with no period in it is all
    root. *)
Theorem splitext_root (os : OsPath.Platform) (path : string) :
  (fst (OsPath.splitext os path) = EmptyString -> path = EmptyString) /\
  (~ In "."%char (list_ascii_of_string path) ->
   OsPath.splitext os path = (path, EmptyString)).
Proof.
  unfold OsPath.splitext.
  destruct (_splitext_cases path (OsPath.sep os) (OsPath.altsep os) OsPath.extsep)
    as [E | [k [rest [E [Hk [Hlen [Hskip _]]]]]]]; rewrite E; simpl.
  - split; [tauto | reflexivity].
  - split.
    + intros Hroot. exfalso.
      destruct (list_ascii_of_string path) as [| c p]; simpl in Hlen; [lia |].
      destruct k; [lia | discriminate Hroot].
    + intros Hno. exfalso. apply Hno.
      apply (in_skipn _ k). rewrite Hskip. now left.
Qed.

End PathFacts.

Section InferredExt.

Context `{Ops : Operations}.

(** X16: without [ext], what [extract] hands to the extractor factory is
    always a string, and that string is empty or begins with a period:
    it is never a bare name of a format. *)
Theorem extract_inferred_ext_is_dotted
    (self : Res1D) (file_path : string) (q : option (PyQueries query))
    (n : Z) (s : Store) (e' : PyExt) :
  In e' (created_with (calls (extract self file_path q n None s))) ->
  exists str,
    e' = ExtStr str /\
    (str = EmptyString \/ exists rest, str = String "."%char rest).
Proof.
  intros Hin.
  assert (He : e' = ExtStr (snd (OsPath.splitext os_name file_path))).
  { revert Hin. unfold calls. run.
    destruct (clear_queries_after_reading self);
      destruct q as [[l | x] |]; simpl; repeat step;
      intros Hin; repeat (destruct Hin as [Hin | Hin]; try (symmetry; exact Hin));
      contradiction. }
  exists (snd (OsPath.splitext os_name file_path)). split; [exact He |].
  unfold OsPath.splitext.
  destruct (_splitext_cases file_path (OsPath.sep os_name)
              (OsPath.altsep os_name) OsPath.extsep)
    as [E | [k [rest [E _]]]]; rewrite E; simpl.
  - left. reflexivity.
  - right. eexists. reflexivity.
Qed.

End InferredExt.

(** ** The properties that read the result data *)

Section PropertyFacts.

Context `{Ops : Operations} `{Ins : @Inspection H}.



Lemma construct_returns_fresh_object
    (file_path : option string) (lazy_load header_load : bool)
    (reaches nodes catchments : option (list string))
    (col_name_delimiter : string) (put_chainage clear : bool)
    (t : ResultReaderType) (e : engine)
    (self : Res1D) (s : Store) (tr : list Event) :
  construct file_path lazy_load header_load reaches nodes catchments
    col_name_delimiter put_chainage clear t e = (Returned (self, s), tr) ->
  self = mkRes1D None None clear.
Proof.
  unfold construct, __init__, bind, call, ret.
  repeat step; try discriminate.
  match goal with a : (list query * list string)%type |- _ => destruct a end.
  intros Hret. inversion Hret. reflexivity.
Qed.

(** X17: when the reader has no file path, or an empty one, [__repr__]
    is the heading alone and reads nothing else: it ends in the store
    the read of the path left. *)
Theorem repr_without_file
    (self : Res1D) (s : Store) (fp : option string) (s1 : Store) :
  result_reader_file_path s = (Returned fp, s1) ->
  truthy fp = false ->
  __repr__ self s = (Returned "<mikeio1d.Res1D>"%string, s1).
Proof.
  intros Hfp Hfalse. unfold __repr__, __repr__out, file_path, and_then, result.
  rewrite Hfp, Hfalse. reflexivity.
Qed.



(** X19: an object the constructor returned has no cached time: its
    [start_time] and [end_time] are always the conversion of the
    [StartTime] and [EndTime] read from the result data at that
    moment. *)
Theorem times_come_from_the_data
    (file_path : option string) (lazy_load header_load : bool)
    (reaches nodes catchments : option (list string))
    (col_name_delimiter : string) (put_chainage clear : bool)
    (t : ResultReaderType) (e : engine)
    (self : Res1D) (s : Store) (tr : list Event) :
  construct file_path lazy_load header_load reaches nodes catchments
    col_name_delimiter put_chainage clear t e = (Returned (self, s), tr) ->
  forall s',
    start_time self s' = and_then data_StartTime from_dotnet_datetime s' /\
    end_time self s' = and_then data_EndTime from_dotnet_datetime s'.
Proof.
  intros Hc s'. rewrite (construct_returns_fresh_object _ _ _ _ _ _ _ _ _ _ _ Hc).
  split; reflexivity.
Qed.

End PropertyFacts.

Section ExtractClearing.

Context `{Ops : Operations}.

(** X6: on an object that clears after reading, an [extract] whose three
    stages return empties both containers and changes nothing else of
    the store [export] left, also when the queries were passed as an
    argument and the active ones were not used. *)
Theorem extract_with_clearing
    (self : Res1D) (file_path : string) (q : option (PyQueries query))
    (n : Z) (ext : PyExt) (s : Store) (qs : list query)
    (es : entries) (s1 : Store) (x : extractor) (s2 s3 : Store) :
  clear_queries_after_reading self = true ->
  outcome (_get_actual_queries self q s) = Returned qs ->
  result_network_convert_queries_to_data_entries qs s = (Returned es, s1) ->
  ExtractorCreator_create ext file_path es n s1 = (Returned x, s2) ->
  extractor_export x s2 = (Returned tt, s3) ->
  extract self file_path q n (Some ext) s =
    (Returned tt, mkStore [] [] (eng s3),
     [Ev (CallConvertQueries qs) None;
      Ev (CallCreateExtractor ext file_path es n) None;
      Ev (CallExport x) None]).
Proof.
  intros Hflag Hqs Hconv Hcreate Hexp.
  assert (Hact : _get_actual_queries self q s = (Returned qs, s, [])).
  { destruct q as [[l | y] |]; unfold outcome in Hqs; simpl in Hqs;
      inversion Hqs; reflexivity. }
  unfold extract. unfold bind at 1. rewrite Hact.
  unfold bind, call, ret. cbv beta iota. rewrite Hconv. cbv beta iota.
  rewrite Hcreate. cbv beta iota. rewrite Hexp. cbv beta iota.
  rewrite Hflag. reflexivity.
Qed.

End ExtractClearing.

(** ** The further theorems at concrete inputs *)

Section MoreOnEngine1D.

Import Engine1D.
Import Inspect1D.

Local Open Scope Z_scope.
Local Open Scope string_scope.

Lemma get_reach_value_with_datetime_witness :
  @result_reader_is_lts_result_file colls ops network_store
    = (Returned false, network_store) /\
  @get_reach_value colls ops (res1d true) "r1" 50 "Discharge"
    (@IsDateTime colls 1) network_store
  = (Returned 4, network_store,
     [Ev (H := colls) CallIsLts None;
      Ev (H := colls) (@CallGetReachValue colls "r1" 50 "Discharge" 1) None]).
Proof.
  split; [reflexivity |].
  apply (@get_reach_value_with_datetime colls ops (res1d true) "r1" 50
           "Discharge" 1 network_store network_store).
  reflexivity.
Defined.

Lemma get_reach_value_converts_time_witness :
  @result_reader_is_lts_result_file colls ops network_store
    = (Returned false, network_store) /\
  @to_dotnet_datetime colls ops 2 network_store = (Returned 2, network_store) /\
  @get_reach_value colls ops (res1d true) "r1" 50 "Discharge"
    (@NotDateTime colls 2) network_store
  = (Returned 5, network_store,
     [Ev (H := colls) CallIsLts None;
      Ev (H := colls) (@CallToDotnetDatetime colls 2) None;
      Ev (H := colls) (@CallGetReachValue colls "r1" 50 "Discharge" 2) None]).
Proof.
  split; [reflexivity |]. split; [reflexivity |].
  apply (proj1 (@get_reach_value_converts_time colls ops (res1d true) "r1" 50
                  "Discharge" 2 network_store network_store eq_refl)
           2 network_store).
  reflexivity.
Defined.

Lemma get_reach_value_passes_through_unless_lts_witness :
  fst (@result_reader_is_lts_result_file colls ops network_store)
    <> Returned true /\
  passes_through
    (@get_reach_value colls ops (res1d true) "r9" 50 "Discharge"
       (@NotDateTime colls 2) network_store).
Proof.
  assert (Hlts : fst (@result_reader_is_lts_result_file colls ops network_store)
                   <> Returned true) by discriminate.
  split; [exact Hlts |].
  exact (proj2 (@get_reach_value_passes_through_unless_lts colls ops
                  (res1d true) "r9" 50 "Discharge" (@NotDateTime colls 2)
                  network_store) Hlts).
Defined.

Lemma constructor_stops_at_first_failure_witness :
  @ResultReaderCreator_create colls ops QUERY (Some "nowhere.res1d") false
    false None None None ":" true fresh
    = (Raised (PyExn "FileNotFoundError" "nowhere.res1d"), fresh) /\
  @construct colls ops (Some "nowhere.res1d") false false None None None
    ":" true true QUERY fresh
  = (Raised (PyExn "FileNotFoundError" "nowhere.res1d"),
     [Ev (H := colls)
         (@CallCreateReader colls QUERY (Some "nowhere.res1d") false false
            None None None ":" true)
         (Some (PyExn "FileNotFoundError" "nowhere.res1d"))]).
Proof.
  split; [reflexivity |].
  apply (proj2 (@constructor_stops_at_first_failure colls ops
                  (Some "nowhere.res1d") false false None None None ":" true
                  true QUERY fresh)
           (PyExn "FileNotFoundError" "nowhere.res1d") fresh).
  reflexivity.
Defined.

Lemma constructed_object_witness :
  @construct colls ops (Some "network.res1d") false false None None None
    ":" true false QUERY fresh
  = (Returned (res1d false, network_store),
     [Ev (H := colls)
         (@CallCreateReader colls QUERY (Some "network.res1d") false false
            None None None ":" true) None;
      Ev (H := colls) CallNewNetwork None;
      Ev (H := colls) CallNewWriter None]) /\
  res1d false = mkRes1D (H := colls) None None false.
Proof.
  split; [reflexivity |].
  exact (proj1 (@constructed_object colls ops (Some "network.res1d") false
                  false None None None ":" true false QUERY fresh
                  (res1d false) network_store _ eq_refl)).
Defined.

Lemma extract_with_clearing_witness :
  @extract colls ops (res1d true) "out.txt"
    (Some (QSingle discharge_r1)) 2 (Some (ExtType CSV)) network_store_active
  = (Returned tt,
     mkStore (H := colls) [] []
       (mkEngine (disk fresh) network_file "network.res1d"
          [("out.txt", CSV, [mkSeries discharge_r1 [3; 4; 5]])]),
     [Ev (H := colls) (@CallConvertQueries colls [discharge_r1]) None;
      Ev (H := colls)
         (@CallCreateExtractor colls (ExtType CSV) "out.txt" [discharge_r1] 2)
         None;
      Ev (H := colls)
         (@CallExport colls (mkExtractor CSV "out.txt" [discharge_r1] 2))
         None]).
Proof.
  apply (@extract_with_clearing colls ops (res1d true) "out.txt"
           (Some (QSingle discharge_r1)) 2 (ExtType CSV) network_store_active
           [discharge_r1] [discharge_r1] network_store_active
           (mkExtractor CSV "out.txt" [discharge_r1] 2) network_store_active
           (mkStore (H := colls) [water_level_n1] ["WaterLevel:n1"]
              (mkEngine (disk fresh) network_file "network.res1d"
                 [("out.txt", CSV, [mkSeries discharge_r1 [3; 4; 5]])])));
    reflexivity.
Defined.

Lemma extract_stops_at_first_failure_witness :
  @extract colls ops (res1d true) "out.xyz" None 1 (Some (ExtStr ".xyz"))
    network_store_active
  = (Raised (PyExn "ValueError" ".xyz"), network_store_active,
     [Ev (H := colls) (@CallConvertQueries colls [water_level_n1]) None;
      Ev (H := colls)
         (@CallCreateExtractor colls (ExtStr ".xyz") "out.xyz"
            [water_level_n1] 1)
         (Some (PyExn "ValueError" ".xyz"))]).
Proof.
  apply (proj1 (proj2 (@extract_stops_at_first_failure colls ops (res1d true)
                         "out.xyz" None 1 (ExtStr ".xyz") network_store_active
                         [water_level_n1] eq_refl))
           [water_level_n1] network_store_active);
    reflexivity.
Defined.

Lemma extract_without_clearing_witness :
  @extract colls ops (res1d false) "out.dfs0" None 1 (Some (ExtType DFS0))
    network_store_active
  = (Returned tt,
     mkStore (H := colls) [water_level_n1] ["WaterLevel:n1"]
       (mkEngine (disk fresh) network_file "network.res1d"
          [("out.dfs0", DFS0, [mkSeries water_level_n1 [10; 11; 12]])]),
     [Ev (H := colls) (@CallConvertQueries colls [water_level_n1]) None;
      Ev (H := colls)
         (@CallCreateExtractor colls (ExtType DFS0) "out.dfs0"
            [water_level_n1] 1) None;
      Ev (H := colls)
         (@CallExport colls (mkExtractor DFS0 "out.dfs0" [water_level_n1] 1))
         None]).
Proof.
  apply (@extract_without_clearing colls ops (res1d false) "out.dfs0" None 1
           (ExtType DFS0) network_store_active
           [water_level_n1] [water_level_n1] network_store_active
           (mkExtractor DFS0 "out.dfs0" [water_level_n1] 1)
           network_store_active);
    reflexivity.
Defined.

Lemma nothing_active_read_all_extract_none_witness :
  queries network_store = [] /\
  map (@ev_call colls) (calls (@read colls ops (res1d true) None network_store))
    = [@CallReadAll colls] /\
  exists rest,
    map (@ev_call colls)
      (calls (@extract colls ops (res1d true) "out.csv" None 1 None
                network_store))
    = @CallConvertQueries colls [] :: rest.
Proof.
  split; [reflexivity |].
  apply (@nothing_active_read_all_extract_none colls ops (res1d true)
           "out.csv" 1 None network_store).
  reflexivity.
Defined.

Lemma modify_stops_at_first_failure_witness :
  @modify colls (Faults1D.ops true false) (res1d true)
    [mkSeries water_level_n1 [0; 0; 0]] (Some "edited.res1d") network_store
  = (Raised (PyExn "IOError" "the result data is read-only"), network_store,
     [Ev (H := colls)
         (@CallModify colls [mkSeries water_level_n1 [0; 0; 0]])
         (Some (PyExn "IOError" "the result data is read-only"))]) /\
  outcome
    (@modify colls (Faults1D.ops false true) (res1d true)
       [mkSeries water_level_n1 [0; 0; 0]] (Some "edited.res1d") network_store)
  = Raised (PyExn "ArgumentException" "edited.res1d") /\
  map (@ev_call colls)
    (calls
       (@modify colls (Faults1D.ops false true) (res1d true)
          [mkSeries water_level_n1 [0; 0; 0]] (Some "edited.res1d")
          network_store))
  = [@CallModify colls [mkSeries water_level_n1 [0; 0; 0]];
     @CallSetPath colls "edited.res1d"].
Proof.
  split.
  - apply (proj1 (@modify_stops_at_first_failure colls (Faults1D.ops true false)
                    (res1d true) [mkSeries water_level_n1 [0; 0; 0]]
                    network_store)).
    reflexivity.
  - rewrite (proj2 (@modify_stops_at_first_failure colls
                      (Faults1D.ops false true) (res1d true)
                      [mkSeries water_level_n1 [0; 0; 0]] network_store)
               "edited.res1d" _ (PyExn "ArgumentException" "edited.res1d") _
               eq_refl eq_refl).
    split; reflexivity.
Defined.

Lemma read_after_extract_reads_all_witness :
  clear_queries_after_reading (res1d true) = true /\
  outcome (@extract colls ops (res1d true) "out.csv" None 1 None
             network_store_active) = Returned tt /\
  @read colls ops (res1d true) None
    (final (@extract colls ops (res1d true) "out.csv" None 1 None
              network_store_active))
  = @read_all colls ops (res1d true)
      (final (@extract colls ops (res1d true) "out.csv" None 1 None
                network_store_active)).
Proof.
  split; [reflexivity |]. split; [reflexivity |].
  apply (@read_after_extract_reads_all colls ops (res1d true) "out.csv" None 1
           None network_store_active); reflexivity.
Defined.

Lemma splitext_root_witness :
  ~ In "."%char (list_ascii_of_string "results/out") /\
  OsPath.splitext OsPath.Nt "results/out" = ("results/out", "").
Proof.
  assert (Hno : ~ In "."%char (list_ascii_of_string "results/out")).
  { simpl. intros Hin.
    repeat (destruct Hin as [Hin | Hin]; [discriminate Hin |]). exact Hin. }
  split; [exact Hno |].
  exact (proj2 (splitext_root OsPath.Nt "results/out") Hno).
Defined.

Lemma extract_inferred_ext_is_dotted_witness :
  In (ExtStr ".csv")
     (created_with
        (calls (@extract colls ops (res1d true) "out.csv" None 1 None
                  network_store_active))) /\
  exists str,
    ExtStr ".csv" = ExtStr str /\
    (str = "" \/ exists rest, str = String "."%char rest).
Proof.
  assert (Hin : In (ExtStr ".csv")
                  (created_with
                     (calls (@extract colls ops (res1d true) "out.csv" None 1
                               None network_store_active)))).
  { simpl. left. reflexivity. }
  split; [exact Hin |].
  exact (@extract_inferred_ext_is_dotted colls ops (res1d true) "out.csv" None
           1 network_store_active (ExtStr ".csv") Hin).
Defined.

Lemma repr_without_file_witness :
  @result_reader_file_path colls ins no_file_store
    = (Returned None, no_file_store) /\
  truthy None = false /\
  @__repr__ colls ins (res1d true) no_file_store
    = (Returned "<mikeio1d.Res1D>", no_file_store).
Proof.
  split; [reflexivity |]. split; [reflexivity |].
  apply (@repr_without_file colls ins (res1d true) no_file_store None
           no_file_store); reflexivity.
Defined.


Lemma times_come_from_the_data_witness :
  @construct colls ops (Some "network.res1d") false false None None None
    ":" true true QUERY fresh
  = (Returned (res1d true, network_store),
     [Ev (H := colls)
         (@CallCreateReader colls QUERY (Some "network.res1d") false false
            None None None ":" true) None;
      Ev (H := colls) CallNewNetwork None;
      Ev (H := colls) CallNewWriter None]) /\
  @start_time colls ins (res1d true) network_store
    = (Returned 0, network_store) /\
  @end_time colls ins (res1d true) network_store
    = (Returned 2, network_store).
Proof.
  split; [reflexivity |].
  destruct (@times_come_from_the_data colls ops ins (Some "network.res1d")
              false false None None None ":" true true QUERY fresh
              (res1d true) network_store _ eq_refl network_store)
    as [Hs He].
  split; [rewrite Hs | rewrite He]; reflexivity.
Defined.

(** The summary of the network file, as [__repr__] joins it. *)
Example repr_network :
  fst (@__repr__ colls ins (res1d true) network_store)
  = Returned
      (String.concat newline
         ["<mikeio1d.Res1D>"; "Start time: 0"; "End time: 2";
          "# Timesteps: 3"; "# Catchments: 0"; "# Nodes: 1"; "# Reaches: 1";
          "# Globals: 0"; "0 - WaterLevel <m>"; "1 - Discharge <m^3/s>"]).
Proof. reflexivity. Qed.

End MoreOnEngine1D.
